(** * WPBot: number normalisation, recipient reading and batch dispatch

    A shallow embedding of the functions of [wpbot.py] that carry the
    program's logic: [normalize_number], [normalize_tr_number],
    [read_recipients_from_file], [read_message],
    [send_messages_to_recipients] and [send_messages_single_tab].

    Conventions of the model.
    - A Python [str] is a [string]; a character stands for the code point
      of the same number, so the model covers the strings whose code
      points are below 256.  [str.isdigit] and [str.isspace] are given on
      that range as CPython decides them.
    - A Python [int] is a [Z]; [len] and [enumerate] counters are [nat].
    - [None] is [None]; a raised exception is [Raise] in the type [result].
    - Module globals are explicit arguments of the functions that read
      them: the table [COUNTRY_CODES] of [normalize_number_in]
      ([normalize_number] is that function at the table the module
      defines), the flags [SELENIUM_AVAILABLE] and
      [WEBDRIVER_MANAGER_AVAILABLE] of [send_messages_single_tab]. *)

From Stdlib Require Import String Ascii ZArith DecimalString.
From stdpp Require Import base option list gmap strings.

Local Open Scope string_scope.
Local Open Scope list_scope.

(** ** Python strings *)

(** [str.isspace] on one character: the code points below 256 that
    CPython treats as whitespace. *)
Definition chr_isspace (c : ascii) : bool :=
  let n := N_of_ascii c in
  ((9 <=? n) && (n <=? 13) || (28 <=? n) && (n <=? 32)
   || (n =? 133) || (n =? 160))%N.

(** [str.isdigit] on one character: the decimal digits and the three
    superscript digits of Latin-1, which have Numeric_Type=Digit. *)
Definition chr_isdigit (c : ascii) : bool :=
  let n := N_of_ascii c in
  ((48 <=? n) && (n <=? 57) || (n =? 178) || (n =? 179) || (n =? 185))%N.

(** The characters [0-9] of a regular expression. *)
Definition chr_is09 (c : ascii) : bool :=
  let n := N_of_ascii c in ((48 <=? n) && (n <=? 57))%N.

Fixpoint str_all (p : ascii -> bool) (s : string) : bool :=
  match s with
  | EmptyString => true
  | String c s' => p c && str_all p s'
  end.

(** [s.isdigit()]: at least one character and all of them digits. *)
Definition str_isdigit (s : string) : bool :=
  match s with
  | EmptyString => false
  | String _ _ => str_all chr_isdigit s
  end.

(** [s.startswith(prefix)]. *)
Fixpoint str_startswith (s prefix : string) {struct prefix} : bool :=
  match prefix with
  | EmptyString => true
  | String p prefix' =>
      match s with
      | EmptyString => false
      | String c s' => Ascii.eqb c p && str_startswith s' prefix'
      end
  end.

(** [s.replace(old, new)] for a one-character [old]. *)
Fixpoint str_replace (old : ascii) (new : string) (s : string) : string :=
  match s with
  | EmptyString => EmptyString
  | String c s' =>
      if Ascii.eqb c old then new +:+ str_replace old new s'
      else String c (str_replace old new s')
  end.

(** [s[n:]]. *)
Fixpoint str_drop (n : nat) (s : string) : string :=
  match n, s with
  | O, _ => s
  | S _, EmptyString => EmptyString
  | S n', String _ s' => str_drop n' s'
  end.

Fixpoint str_lstrip (s : string) : string :=
  match s with
  | EmptyString => EmptyString
  | String c s' => if chr_isspace c then str_lstrip s' else s
  end.

Fixpoint str_rstrip (s : string) : string :=
  match s with
  | EmptyString => EmptyString
  | String c s' =>
      match str_rstrip s' with
      | EmptyString => if chr_isspace c then EmptyString else String c EmptyString
      | r => String c r
      end
  end.

(** [s.strip()]: whitespace removed at both ends. *)
Definition str_strip (s : string) : string := str_rstrip (str_lstrip s).

(** [str(n)] for a counter. *)
Definition str_of_nat (n : nat) : string :=
  NilEmpty.string_of_uint (Nat.to_uint n).

(** ** The country table *)

Record country_data := CountryData {
  code : string;
  patterns : list string;
  description : string
}.

Definition COUNTRY_CODES : gmap string country_data :=
  list_to_map [
    ("Turkey", CountryData "+90" ["90"; "05"; "5"] "Turkish mobile numbers");
    ("United States", CountryData "+1" ["1"] "US/Canada numbers");
    ("United Kingdom", CountryData "+44" ["44"; "07"] "UK mobile numbers");
    ("Germany", CountryData "+49" ["49"; "01"] "German mobile numbers");
    ("France", CountryData "+33" ["33"; "06"; "07"] "French mobile numbers");
    ("Italy", CountryData "+39" ["39"; "03"] "Italian mobile numbers");
    ("Spain", CountryData "+34" ["34"; "06"] "Spanish mobile numbers");
    ("Netherlands", CountryData "+31" ["31"; "06"] "Dutch mobile numbers");
    ("Belgium", CountryData "+32" ["32"; "04"] "Belgian mobile numbers");
    ("Switzerland", CountryData "+41" ["41"; "07"] "Swiss mobile numbers");
    ("Austria", CountryData "+43" ["43"; "06"] "Austrian mobile numbers");
    ("Poland", CountryData "+48" ["48"; "05"] "Polish mobile numbers");
    ("Czech Republic", CountryData "+420" ["420"; "07"] "Czech mobile numbers");
    ("Hungary", CountryData "+36" ["36"; "06"] "Hungarian mobile numbers");
    ("Romania", CountryData "+40" ["40"; "07"] "Romanian mobile numbers");
    ("Bulgaria", CountryData "+359" ["359"; "08"] "Bulgarian mobile numbers");
    ("Greece", CountryData "+30" ["30"; "06"] "Greek mobile numbers");
    ("Portugal", CountryData "+351" ["351"; "09"] "Portuguese mobile numbers");
    ("Sweden", CountryData "+46" ["46"; "07"] "Swedish mobile numbers");
    ("Norway", CountryData "+47" ["47"; "04"] "Norwegian mobile numbers");
    ("Denmark", CountryData "+45" ["45"; "02"] "Danish mobile numbers");
    ("Finland", CountryData "+358" ["358"; "04"] "Finnish mobile numbers");
    ("Russia", CountryData "+7" ["7"; "08"] "Russian mobile numbers");
    ("China", CountryData "+86" ["86"; "01"] "Chinese mobile numbers");
    ("Japan", CountryData "+81" ["81"; "09"] "Japanese mobile numbers");
    ("South Korea", CountryData "+82" ["82"; "01"] "South Korean mobile numbers");
    ("India", CountryData "+91" ["91"; "09"] "Indian mobile numbers");
    ("Brazil", CountryData "+55" ["55"; "01"] "Brazilian mobile numbers");
    ("Mexico", CountryData "+52" ["52"; "04"] "Mexican mobile numbers");
    ("Argentina", CountryData "+54" ["54"; "01"] "Argentine mobile numbers");
    ("Australia", CountryData "+61" ["61"; "04"] "Australian mobile numbers");
    ("New Zealand", CountryData "+64" ["64"; "02"] "New Zealand mobile numbers");
    ("South Africa", CountryData "+27" ["27"; "08"] "South African mobile numbers");
    ("Egypt", CountryData "+20" ["20"; "01"] "Egyptian mobile numbers");
    ("Saudi Arabia", CountryData "+966" ["966"; "05"] "Saudi mobile numbers");
    ("UAE", CountryData "+971" ["971"; "05"] "UAE mobile numbers");
    ("Israel", CountryData "+972" ["972"; "05"] "Israeli mobile numbers");
    ("Iran", CountryData "+98" ["98"; "09"] "Iranian mobile numbers");
    ("Pakistan", CountryData "+92" ["92"; "03"] "Pakistani mobile numbers");
    ("Bangladesh", CountryData "+880" ["880"; "01"] "Bangladeshi mobile numbers");
    ("Thailand", CountryData "+66" ["66"; "08"] "Thai mobile numbers");
    ("Vietnam", CountryData "+84" ["84"; "03"] "Vietnamese mobile numbers");
    ("Indonesia", CountryData "+62" ["62"; "08"] "Indonesian mobile numbers");
    ("Malaysia", CountryData "+60" ["60"; "01"] "Malaysian mobile numbers");
    ("Singapore", CountryData "+65" ["65"; "08"] "Singaporean mobile numbers");
    ("Philippines", CountryData "+63" ["63"; "09"] "Filipino mobile numbers")
  ].

(** ** The normaliser *)

(** The cleaning chain of [normalize_number]:
    [raw.strip().replace(" ", "").replace("-", "").replace("(", "").replace(")", "")]. *)
Definition clean (raw_number : string) : string :=
  str_replace ")" "" (str_replace "(" ""
    (str_replace "-" "" (str_replace " " "" (str_strip raw_number)))).

(** The [for pattern in patterns] loop: it returns at the first pattern
    the cleaned string starts with, and falls out of the loop to
    [return None] when there is none. *)
Fixpoint scan_patterns (country_code cleaned : string) (pats : list string)
  : option string :=
  match pats with
  | [] => None
  | pattern :: rest =>
      if str_startswith cleaned pattern then
        if String.eqb pattern (str_replace "+" "" country_code)
        then Some ("+" +:+ cleaned)
        else Some (country_code +:+ str_drop (String.length pattern) cleaned)
      else scan_patterns country_code cleaned rest
  end.

(** [normalize_number], reading the table [table] where the source reads
    the global [COUNTRY_CODES]. *)
Definition normalize_number_in (table : gmap string country_data)
    (raw_number country : string) : option string :=
  if String.eqb raw_number "" then None
  else
    match table !! country with
    | None => None
    | Some country_data =>
        let country_code := code country_data in
        let pats := patterns country_data in
        let cleaned := clean raw_number in
        if str_startswith cleaned "+" then
          if str_isdigit (str_replace "+" "" cleaned) then Some cleaned else None
        else if negb (str_isdigit cleaned) then None
        else scan_patterns country_code cleaned pats
    end.

Definition normalize_number (raw_number country : string) : option string :=
  normalize_number_in COUNTRY_CODES raw_number country.

Definition normalize_tr_number (raw_number : string) : option string :=
  normalize_number raw_number "Turkey".

(** A string of the shape [+d1...dn], n >= 1, each [di] one of 0-9. *)
Definition is_canonical (s : string) : bool :=
  match s with
  | String c rest =>
      Ascii.eqb c "+" && negb (String.eqb rest "") && str_all chr_is09 rest
  | EmptyString => false
  end.


(** ** Exceptions, results and what the program does to the outside *)

(** The exceptions the functions raise or catch; all of them are
    subclasses of [Exception].  [LibraryError] stands for what a
    collaborator (pywhatkit, Selenium, the operating system) raises. *)
Inductive exn :=
| ValueError (msg : string)
| FileNotFoundError (msg : string)
| RuntimeError (msg : string)
| LibraryError (msg : string).

(** [str(error)]. *)
Definition exn_str (e : exn) : string :=
  match e with
  | ValueError m | FileNotFoundError m | RuntimeError m | LibraryError m => m
  end.

Inductive result (A : Type) :=
| Return (a : A)
| Raise (e : exn).
Arguments Return {A} a.
Arguments Raise {A} e.

(** The calls into pywhatkit and Selenium, with their arguments. *)
Inductive operation :=
| sendwhatmsg_instantly (phone_no message : string) (wait_time : Z)
    (tab_close : bool) (close_time : Z)
| mkdir (path : string)
| Chrome (arguments : list string)
| maximize_window
| driver_get (url : string)
| wait_until_present (timeout : Z) (css_selector : string)
| find_element (css_selector : string)
| send_keys_ENTER (css_selector : string).

(** What a run leaves behind, in order: lines printed to stdout and to
    stderr, sleeps, and calls of collaborators with what came back
    ([None]: the call returned, [Some m]: it raised an exception whose
    text is [m]). *)
Inductive event :=
| Print (line : string)
| PrintErr (line : string)
| Sleep (seconds : Z)
| Call (op : operation) (raised : option string).

(** ** Reading the recipients and the message *)

(** The text files on disk: a path, written as [str(path)], is mapped to
    the text that reading it in text mode with UTF-8 delivers. *)
Abbreviation filesystem := (gmap string string).

Definition newline : ascii := "010"%char.

(** The lines that iterating over a text file yields: every line keeps
    its line feed, the last one may have none. *)
Fixpoint file_lines (text : string) : list string :=
  match text with
  | EmptyString => []
  | String c rest =>
      if Ascii.eqb c newline then String c EmptyString :: file_lines rest
      else
        match file_lines rest with
        | [] => [String c EmptyString]
        | line :: more => String c line :: more
        end
  end.

(** The test of a stripped line in [read_recipients_from_file]:
    [line.startswith("+") and line.replace("+", "").isdigit()]. *)
Definition valid_entry (line : string) : bool :=
  str_startswith line "+" && str_isdigit (str_replace "+" "" line).

(** The body of [for raw_line in file_handle]: the recipients appended
    and the lines printed to stderr. *)
Fixpoint recipients_loop (raw_lines : list string) : list string * list event :=
  match raw_lines with
  | [] => ([], [])
  | raw_line :: rest =>
      let line := str_strip raw_line in
      let '(recipients, printed) := recipients_loop rest in
      if String.eqb line "" || str_startswith line "#" then
        (recipients, printed)
      else if negb (valid_entry line) then
        (recipients, PrintErr ("Skipping invalid phone entry: " +:+ line) :: printed)
      else (line :: recipients, printed)
  end.

Definition read_recipients_from_file (fs : filesystem) (file_path : string)
  : result (list string) * list event :=
  match fs !! file_path with
  | None => (Raise (FileNotFoundError ("Recipients file not found: " +:+ file_path)), [])
  | Some text =>
      let '(recipients, printed) := recipients_loop (file_lines text) in
      (Return recipients, printed)
  end.

(** Truth value of a [str | None]: false for [None] and for "". *)
Definition truthy (message : option string) : bool :=
  match message with
  | Some (String _ _) => true
  | _ => false
  end.

(** [read_message]; a [Path] object is always true, so [message_file]
    counts as given exactly when it is not [None]. *)
Definition read_message (fs : filesystem) (message message_file : option string)
  : result string :=
  if truthy message && bool_decide (is_Some message_file) then
    Raise (ValueError "Provide either --message or --message-file, not both.")
  else
    match message_file with
    | Some path =>
        match fs !! path with
        | None => Raise (FileNotFoundError ("Message file not found: " +:+ path))
        | Some text => Return (str_strip text)
        end
    | None =>
        match message with
        | Some (String _ _ as text) => Return text
        | _ => Raise (ValueError "A message is required. Use --message or --message-file.")
        end
    end.

Definition is_ValueError {A} (r : result A) : bool :=
  match r with
  | Raise (ValueError _) => true
  | _ => false
  end.

(** The filter the specification names for a recipient line: a leading
    "+" and nothing but digits after it. *)
Definition plus_then_digits (line : string) : bool :=
  str_startswith line "+" && str_isdigit (str_drop 1 line).

(** No "+" after the first character. *)
Definition no_inner_plus (line : string) : bool :=
  str_all (fun c => negb (Ascii.eqb c "+")) (str_drop 1 line).


Definition skip_message (line : string) : event :=
  PrintErr ("Skipping invalid phone entry: " +:+ line).

(** ** The dispatchers *)

(** The outcome of one recipient, as the specification names it. *)
Inductive SendOutcome :=
| Sent
| Failed (reason : string).

(** The outcome an event settles, if any: a call made for a recipient
    that raised makes that recipient fail; the call that sends, when it
    returns, makes it sent.  The calls that only set the browser up
    settle nothing. *)
Definition outcome_of_event (ev : event) : option SendOutcome :=
  match ev with
  | Call (mkdir _) _ | Call (Chrome _) _ | Call maximize_window _ => None
  | Call _ (Some reason) => Some (Failed reason)
  | Call (sendwhatmsg_instantly _ _ _ _ _) None => Some Sent
  | Call (send_keys_ENTER _) None => Some Sent
  | _ => None
  end.

Definition outcomes (trace : list event) : list SendOutcome :=
  omap outcome_of_event trace.

(** Outcomes and sleeps of a trace, in the order they happened. *)
Definition pace_of_event (ev : event) : option (SendOutcome + Z) :=
  match ev with
  | Sleep seconds => Some (inr seconds)
  | _ => inl <$> outcome_of_event ev
  end.

Definition pacing (trace : list event) : list (SendOutcome + Z) :=
  omap pace_of_event trace.

Definition sleeps (trace : list event) : list Z :=
  omap (fun ev => match ev with Sleep seconds => Some seconds | _ => None end) trace.

(** The numbers pywhatkit was asked to send to, one entry per call. *)
Definition attempted (trace : list event) : list string :=
  omap (fun ev => match ev with
                  | Call (sendwhatmsg_instantly phone_no _ _ _ _) _ => Some phone_no
                  | _ => None
                  end) trace.

(** The addresses the browser was sent to, one entry per call. *)
Definition visited (trace : list event) : list string :=
  omap (fun ev => match ev with
                  | Call (driver_get url) _ => Some url
                  | _ => None
                  end) trace.

Section Dispatch.
(** The world outside the program and how it answers a call: whether
    the call raises, and the world afterwards. *)
Context {World : Type}.
Variable env : operation -> World -> option string * World.
(** [urllib.parse.quote_plus]. *)
Variable quote_plus : string -> string.

(** A computation starts in a world and ends with a value or an
    exception, a world, and the events it caused. *)
Definition M (A : Type) : Type := World -> result A * World * list event.

Definition ret {A} (a : A) : M A := fun w => (Return a, w, []).

Definition bind {A B} (m : M A) (k : A -> M B) : M B :=
  fun w =>
    match m w with
    | (Return a, w1, t1) => let '(r, w2, t2) := k a w1 in (r, w2, t1 ++ t2)
    | (Raise e, w1, t1) => (Raise e, w1, t1)
    end.

Definition raise {A} (e : exn) : M A := fun w => (Raise e, w, []).

(** [try: body / except Exception as error: handler error]. *)
Definition try_except {A} (body : M A) (handler : exn -> M A) : M A :=
  fun w =>
    match body w with
    | (Return a, w1, t1) => (Return a, w1, t1)
    | (Raise e, w1, t1) => let '(r, w2, t2) := handler e w1 in (r, w2, t1 ++ t2)
    end.

Definition print (line : string) : M unit := fun w => (Return tt, w, [Print line]).
Definition print_err (line : string) : M unit := fun w => (Return tt, w, [PrintErr line]).
Definition sleep (seconds : Z) : M unit := fun w => (Return tt, w, [Sleep seconds]).

Definition call (op : operation) : M unit :=
  fun w =>
    let '(raised, w1) := env op w in
    (match raised with
     | None => Return tt
     | Some reason => Raise (LibraryError reason)
     end, w1, [Call op raised]).

Local Notation "m1 ;; m2" := (bind m1 (fun _ => m2))
  (at level 100, m2 at level 200, right associativity).
Local Notation "x <- m1 ;; m2" := (bind m1 (fun x => m2))
  (at level 100, m1 at next level, m2 at level 200, right associativity).

Definition sending_line (index total : nat) (phone_number : string) : string :=
  "[" +:+ str_of_nat index +:+ "/" +:+ str_of_nat total +:+ "] Sending to "
      +:+ phone_number +:+ " ...".

Definition failed_line (phone_number : string) (error : exn) : string :=
  "Failed to send to " +:+ phone_number +:+ ": " +:+ exn_str error.

(** The loop of [send_messages_to_recipients];
    [total] is [len(recipients)], [index] counts from 1. *)
Fixpoint send_loop (total : nat) (message : string) (per_send_wait_seconds : Z)
    (tab_close : bool) (close_time_seconds : Z)
    (index : nat) (recipients : list string) : M unit :=
  match recipients with
  | [] => ret tt
  | phone_number :: rest =>
      print (sending_line index total phone_number) ;;
      try_except
        (call (sendwhatmsg_instantly phone_number message per_send_wait_seconds
                 tab_close close_time_seconds) ;;
         sleep (Z.max 20 (per_send_wait_seconds + 10)))
        (fun error =>
           print_err (failed_line phone_number error) ;;
           sleep 5) ;;
      send_loop total message per_send_wait_seconds tab_close close_time_seconds
        (S index) rest
  end.

Definition send_messages_to_recipients (recipients : list string)
    (message : string) (per_send_wait_seconds : Z) (tab_close : bool)
    (close_time_seconds : Z) : M unit :=
  match recipients with
  | [] => print "No valid recipients found."
  | _ =>
      print ("Starting to send message to " +:+ str_of_nat (length recipients)
               +:+ " recipient(s)...") ;;
      send_loop (length recipients) message per_send_wait_seconds tab_close
        close_time_seconds 1 recipients ;;
      print "Done."
  end.

Definition message_box : string := "div[contenteditable='true'][data-tab='10']".

Definition chat_url (phone_number message : string) : string :=
  let digits_only := str_replace "+" "" phone_number in
  "https://web.whatsapp.com/send?phone=" +:+ digits_only +:+ "&text="
    +:+ quote_plus message.

(** The body of the [try] in the loop of [send_messages_single_tab]. *)
Definition open_chat_and_send (url : string) (timeout : Z) : M unit :=
  call (driver_get url) ;;
  call (wait_until_present timeout message_box) ;;
  call (find_element message_box) ;;
  call (send_keys_ENTER message_box) ;;
  sleep 3.

(** The loop of [send_messages_single_tab]; [timeout] is the timeout of
    the [WebDriverWait] object made before the loop. *)
Fixpoint single_tab_loop (total : nat) (message : string) (timeout : Z)
    (index : nat) (recipients : list string) : M unit :=
  match recipients with
  | [] => ret tt
  | phone_number :: rest =>
      let url := chat_url phone_number message in
      print (sending_line index total phone_number) ;;
      try_except
        (open_chat_and_send url timeout)
        (fun error =>
           print_err (failed_line phone_number error) ;;
           sleep 2) ;;
      single_tab_loop total message timeout (S index) rest
  end.

(** Lines 281 to 303 of [send_messages_single_tab]: the Chrome options,
    the driver, the first page and the wait for the login; the value is
    the timeout of the [WebDriverWait] object.  A path is written in
    the form [str(Path(p))] gives. *)
Definition start_browser (WEBDRIVER_MANAGER_AVAILABLE : bool)
    (initial_wait_seconds : Z) (user_data_dir_path : option string) : M Z :=
  chrome_options <-
    (if truthy user_data_dir_path then
       try_except
         (call (mkdir (default "" user_data_dir_path)) ;;
          ret ["--user-data-dir=" +:+ default "" user_data_dir_path])
         (fun _ => ret [])
     else ret []) ;;
  let chrome_options := chrome_options ++ ["--disable-notifications"] in
  if negb WEBDRIVER_MANAGER_AVAILABLE then
    raise (RuntimeError
             "webdriver-manager is not available. Install with: python -m pip install webdriver-manager")
  else
    call (Chrome chrome_options) ;;
    call maximize_window ;;
    call (driver_get "https://web.whatsapp.com/") ;;
    let timeout := Z.max 30 initial_wait_seconds in
    call (wait_until_present timeout "div[role='textbox']") ;;
    ret timeout.

(** [send_messages_single_tab]; the two flags are the module globals of
    the same names. *)
Definition send_messages_single_tab
    (SELENIUM_AVAILABLE WEBDRIVER_MANAGER_AVAILABLE : bool)
    (recipients : list string) (message : string) (initial_wait_seconds : Z)
    (user_data_dir_path : option string) : M unit :=
  if negb SELENIUM_AVAILABLE then
    raise (RuntimeError
             "Selenium is not available. Install with: python -m pip install selenium")
  else
    match recipients with
    | [] => print "No valid recipients found."
    | _ =>
        timeout <- start_browser WEBDRIVER_MANAGER_AVAILABLE initial_wait_seconds
                     user_data_dir_path ;;
        print ("Starting to send message to " +:+ str_of_nat (length recipients)
                 +:+ " recipient(s) in single-tab mode...") ;;
        single_tab_loop (length recipients) message timeout 1 recipients ;;
        print "Done."
    end.
End Dispatch.

(** The parts of what a computation ends with. *)
Definition outcome_value {W A} (x : result A * W * list event) : result A := x.1.1.
Definition final_world {W A} (x : result A * W * list event) : W := x.1.2.
Definition trace_of {W A} (x : result A * W * list event) : list event := x.2.

(** What one recipient adds to the trace of the pywhatkit loop, given
    what the call did. *)
Definition send_block (total : nat) (message : string) (per_send_wait_seconds : Z)
    (tab_close : bool) (close_time_seconds : Z) (index : nat)
    (phone_number : string) (raised : option string) : list event :=
  Print (sending_line index total phone_number)
  :: Call (sendwhatmsg_instantly phone_number message per_send_wait_seconds
             tab_close close_time_seconds) raised
  :: match raised with
     | None => [Sleep (Z.max 20 (per_send_wait_seconds + 10))]
     | Some reason =>
         [PrintErr (failed_line phone_number (LibraryError reason)); Sleep 5]
     end.

(** What the [except] branch of the single-tab loop adds after an attempt. *)
Definition recovery (phone_number : string) (attempt : result unit) : list event :=
  match attempt with
  | Return _ => []
  | Raise error => [PrintErr (failed_line phone_number error); Sleep 2]
  end.

(** The outcome an attempt of the single-tab loop amounts to. *)
Definition outcome_of_attempt (attempt : result unit) : SendOutcome :=
  match attempt with
  | Return _ => Sent
  | Raise error => Failed (exn_str error)
  end.

(** The settle time after an outcome, for each dispatcher. *)
Definition settle_pywhatkit (per_send_wait_seconds : Z) (o : SendOutcome) : Z :=
  match o with
  | Sent => Z.max 20 (per_send_wait_seconds + 10)
  | Failed _ => 5
  end.

Definition settle_single_tab (o : SendOutcome) : Z :=
  match o with
  | Sent => 3
  | Failed _ => 2
  end.

(** A world for examples: it counts the calls made so far, and the calls
    whose number is in [bad] raise. *)
Definition flaky (bad : list nat) (op : operation) (calls : nat) : option string * nat :=
  (if existsb (Nat.eqb calls) bad then Some "timed out" else None, S calls).

(** Two runs in such a world, to three numbers with a wait of 40 seconds:
    of the pywhatkit sender, started after seven calls, and of the
    single-tab sender, started before any call.  The ninth call times
    out: in both runs it is the first call made for the second number. *)
Definition example_run : result unit * nat * list event :=
  send_messages_to_recipients (flaky [8]) ["+1"; "+2"; "+3"] "hi" 40 true 3 7.

Definition example_tab_run : result unit * nat * list event :=
  send_messages_single_tab (flaky [8]) (fun text => text) true true
    ["+1"; "+2"; "+3"] "hi" 40 None 0.

(** The single-tab sender called with no recipients when Selenium is not
    available. *)
Definition example_no_selenium : result unit * nat * list event :=
  send_messages_single_tab (flaky []) (fun text => text) false true
    [] "hi" 40 None 0.


(** ** The preview of the graphical interface *)

(** The list comprehension of [load_recipients_preview] and of the file
    branch of [normalize_preview_numbers], over [fh.readlines()]:
    [[ln.strip() for ln in ... if ln.strip() and not ln.lstrip().startswith('#')]]. *)
Definition preview_lines_of_file (raw_lines : list string) : list string :=
  map str_strip
    (List.filter
       (fun ln => negb (String.eqb (str_strip ln) "")
                  && negb (str_startswith (str_lstrip ln) "#"))
       raw_lines).

(** ["\n".join(numbers)]. *)
Definition join_lines (numbers : list string) : string :=
  String.concat (String newline "") numbers.

(** The characters [str.splitlines] breaks a line at, below 256. *)
Definition chr_islinebreak (c : ascii) : bool :=
  let n := N_of_ascii c in
  ((10 <=? n) && (n <=? 13) || (28 <=? n) && (n <=? 30) || (n =? 133))%N.

(** [s.splitlines()]: the lines without their line breaks; a carriage
    return followed by a line feed is one break, and a break at the very
    end opens no further line. *)
Fixpoint str_splitlines (s : string) : list string :=
  match s with
  | EmptyString => []
  | String c rest =>
      if chr_islinebreak c then
        match rest with
        | String d rest' =>
            if Ascii.eqb c "013" && Ascii.eqb d newline
            then EmptyString :: str_splitlines rest'
            else EmptyString :: str_splitlines rest
        | EmptyString => [EmptyString]
        end
      else
        match str_splitlines rest with
        | [] => [String c EmptyString]
        | line :: more => String c line :: more
        end
  end.

(** What [widget.get("1.0", tk.END)] gives for a text widget holding
    [content]: Tk adds a line feed at the end. *)
Definition text_get (content : string) : string :=
  content +:+ String newline "".

(** The lines [normalize_preview_numbers] takes from the preview text:
    [[ln.strip() for ln in current_text.splitlines() if ln.strip()]]. *)
Definition preview_lines_of_text (current_text : string) : list string :=
  map str_strip
    (List.filter (fun ln => negb (String.eqb (str_strip ln) ""))
       (str_splitlines current_text)).

(** The loop [for ln in lines] of [normalize_preview_numbers]: the
    results that are true, in order. *)
Fixpoint normalize_loop (table : gmap string country_data)
    (selected_country : string) (lines : list string) : list string :=
  match lines with
  | [] => []
  | ln :: rest =>
      let result := normalize_number_in table ln selected_country in
      if truthy result
      then default "" result :: normalize_loop table selected_country rest
      else normalize_loop table selected_country rest
  end.

(** The loop [for num in normalized] with its set [seen]: what it appends
    to [unique_normalized]. *)
Fixpoint unique_loop (seen : gset string) (normalized : list string) : list string :=
  match normalized with
  | [] => []
  | num :: rest =>
      if decide (num ∈ seen) then unique_loop seen rest
      else num :: unique_loop ({[ num ]} ∪ seen) rest
  end.

Definition unique_normalized (normalized : list string) : list string :=
  unique_loop ∅ normalized.

(** What [normalize_preview_numbers] does to the preview, as a function
    of the preview's content, the path entry and the selected country:
    [None] when it shows a dialog and leaves the preview as it is, else
    the new content. *)
Definition normalize_preview_numbers (table : gmap string country_data)
    (fs : filesystem) (preview_content recipients_var country_var : string)
  : option string :=
  let current_text := str_strip (text_get preview_content) in
  let lines :=
    if negb (String.eqb current_text "")
       && negb (str_startswith current_text "(No valid")
    then Some (preview_lines_of_text current_text)
    else if negb (String.eqb (str_strip recipients_var) "") then
      match fs !! str_strip recipients_var with
      | Some text => Some (preview_lines_of_file (file_lines text))
      | None => None
      end
    else None in
  match lines with
  | None => None
  | Some lines =>
      match unique_normalized (normalize_loop table country_var lines) with
      | [] => Some "(No numbers matched normalization rules)"
      | numbers => Some (join_lines numbers)
      end
  end.

(** The loop [for ln in preview_text.splitlines()] of the worker of
    [on_send]. *)
Fixpoint preview_loop (lines : list string) : list string :=
  match lines with
  | [] => []
  | ln :: rest =>
      let val := str_strip ln in
      if negb (String.eqb val "") && str_startswith val "+"
         && str_isdigit (str_replace "+" "" val)
      then val :: preview_loop rest
      else preview_loop rest
  end.

(** What the interface is asked to do, in order. *)
Inductive gui_action :=
| AppendLog (line : string)
| ShowError (title message : string)
| DisableSend
| EnableSend.

(** How a command-line run ends. *)
Inductive main_outcome :=
| LaunchedGui
| ParserError (message : string)
| Ran (r : result unit).

(** The namespace [parse_args] returns. *)
Record cli_args := CliArgs {
  arg_recipients : option string;
  arg_message : option string;
  arg_message_file : option string;
  arg_wait : Z;
  arg_close_time : Z;
  arg_keep_tab_open : bool;
  arg_gui : bool
}.

(** The list comprehension of [setup.py] over the lines of
    requirements.txt:
    [[line.strip() for line in fh if line.strip() and not line.startswith("#")]]. *)
Definition requirements (raw_lines : list string) : list string :=
  map str_strip
    (List.filter
       (fun line => negb (String.eqb (str_strip line) "")
                    && negb (str_startswith line "#"))
       raw_lines).

Section Application.
Context {World : Type}.
Variable env : operation -> World -> option string * World.
Variable quote_plus : string -> string.

Local Notation "m1 ;; m2" := (bind m1 (fun _ => m2))
  (at level 100, m2 at level 200, right associativity).
Local Notation "x <- m1 ;; m2" := (bind m1 (fun x => m2))
  (at level 100, m1 at next level, m2 at level 200, right associativity).

(** A function that touches the outside only by printing, run inside a
    computation. *)
Definition printing {A} (x : result A * list event) : @M World A :=
  fun w => (x.1, w, x.2).

(** The worker thread of [on_send], from its first line to the end of
    its [finally]; the value is what it asks the interface to do through
    [root.after].  Switching the preview widget between its normal and
    disabled state around the read is left out. *)
Definition worker (fs : filesystem)
    (SELENIUM_AVAILABLE WEBDRIVER_MANAGER_AVAILABLE : bool)
    (preview_content recipients_path_str message_value : string)
    (wait_seconds close_seconds : Z) (tab_close single_tab_var : bool)
  : @M World (list gui_action) :=
  asked <-
    try_except
      (let preview_text := str_strip (text_get preview_content) in
       recipients_list <-
         (if negb (String.eqb preview_text "")
             && negb (str_startswith preview_text "(")
          then ret (preview_loop (str_splitlines preview_text))
          else if String.eqb recipients_path_str "" then
            raise (ValueError
                     "Please select a recipients .txt file or normalize/paste numbers in the preview.")
          else printing (read_recipients_from_file fs recipients_path_str)) ;;
       match recipients_list with
       | [] => ret [AppendLog "No valid recipients found in file."]
       | _ =>
           (if single_tab_var then
              if negb SELENIUM_AVAILABLE then
                raise (RuntimeError
                         "Selenium not installed. Install with: python -m pip install selenium")
              else
                send_messages_single_tab env quote_plus SELENIUM_AVAILABLE
                  WEBDRIVER_MANAGER_AVAILABLE recipients_list message_value
                  wait_seconds None
            else
              send_messages_to_recipients env recipients_list message_value
                wait_seconds tab_close close_seconds) ;;
           ret [AppendLog "Finished sending."]
       end)
      (fun error =>
         match error with
         | FileNotFoundError _ => ret [ShowError "WPBot" (exn_str error)]
         | _ => ret [ShowError "WPBot" ("Error: " +:+ exn_str error)]
         end) ;;
  ret (asked ++ [EnableSend]).

(** [on_send], followed by the run of the worker thread it starts; the
    arguments are the contents of the widgets.  [wait_var] and
    [close_var] are what [wait_var.get()] and [close_var.get()] do: they
    return the integer in the spinbox, or raise the [TclError] of Tk when
    its text is not a number. *)
Definition on_send (fs : filesystem)
    (SELENIUM_AVAILABLE WEBDRIVER_MANAGER_AVAILABLE : bool)
    (recipients_var message_content preview_content : string)
    (wait_var close_var : result Z) (keep_tab_var single_tab_var : bool)
  : @M World (list gui_action) :=
  let recipients_path_str := str_strip recipients_var in
  let message_value := str_strip (text_get message_content) in
  if String.eqb message_value "" then
    ret [ShowError "WPBot" "Please enter a message to send."]
  else
    match wait_var with
    | Raise error => raise error
    | Return wait_seconds =>
        match close_var with
        | Raise error => raise error
        | Return close_seconds =>
            let tab_close := negb keep_tab_var in
            asked <- worker fs SELENIUM_AVAILABLE WEBDRIVER_MANAGER_AVAILABLE
                       preview_content recipients_path_str message_value
                       wait_seconds close_seconds tab_close single_tab_var ;;
            ret (DisableSend
                   :: AppendLog "Reading recipients and starting to send..."
                   :: asked)
        end
    end.

(** [main], given [len(sys.argv)] and what [parse_args] returned; paths
    are written in the form [str(Path(p))] gives.  [parser.error], which
    prints the usage and exits, is the outcome [ParserError].
    [launch_gui()] is not embedded: what it does to the outside while
    its main loop runs is the parameter [launch_gui], and the outcome
    [LaunchedGui] is a return from it. *)
Definition main (launch_gui : @M World unit) (fs : filesystem) (argc : nat)
    (args : cli_args) : World -> main_outcome * World * list event :=
  fun w =>
    let gui :=
      let '(r, w1, t) := launch_gui w in
      (match r with
       | Return _ => LaunchedGui
       | Raise error => Ran (Raise error)
       end, w1, t) in
    if Nat.eqb argc 1 then gui
    else if arg_gui args then gui
    else if negb (truthy (arg_recipients args)) then
      (ParserError "--recipients is required when not using --gui", w, [])
    else
      let recipients_path := default "" (arg_recipients args) in
      let message_file_path :=
        if truthy (arg_message_file args) then arg_message_file args else None in
      let '(r, w1, t) :=
        (recipients <- printing (read_recipients_from_file fs recipients_path) ;;
         message <- printing (read_message fs (arg_message args) message_file_path, []) ;;
         send_messages_to_recipients env recipients message (arg_wait args)
           (negb (arg_keep_tab_open args)) (arg_close_time args)) w in
      (Ran r, w1, t).
End Application.

(** The calls and sleeps of a trace: what is left when the printed lines
    are taken out. *)
Definition acted (trace : list event) : list event :=
  List.filter (fun ev => match ev with
                         | Call _ _ | Sleep _ => true
                         | _ => false
                         end) trace.

Definition total_sleep (trace : list event) : Z :=
  foldr Z.add 0%Z (sleeps trace).

Definition is_sent (o : SendOutcome) : bool :=
  match o with
  | Sent => true
  | Failed _ => false
  end.

(** Files and arguments for examples: a recipients file with a comment,
    two valid numbers and an invalid line, and a message file. *)
Definition example_fs : filesystem :=
  <[ "recipients.txt" := join_lines ["# team"; "+905551234567"; "bad"; " +12345 "] ]>
    {[ "message.txt" := "  Hello!  " ]}.

Definition example_args : cli_args :=
  CliArgs (Some "recipients.txt") None (Some "message.txt") 40 3 false false.

(** A session of the interface in which nothing is sent. *)
Definition example_gui : @M nat unit := ret tt.

(** A character the normaliser lets through: a digit or "+". *)
Definition chr_isdigit_or_plus (c : ascii) : bool :=
  chr_isdigit c || Ascii.eqb c "+".
(** * Proofs *)

(** ** Facts about the string operations *)

Lemma str_all_impl (p q : ascii -> bool) (s : string) :
  (forall c, p c = true -> q c = true) ->
  str_all p s = true -> str_all q s = true.
Proof.
  intros Hpq. induction s as [|c s IH]; simpl; [done|].
  rewrite !andb_true_iff. intros [Hc Hs]. split; [by apply Hpq | by apply IH].
Qed.

Lemma str_replace_absent (old : ascii) (new s : string) :
  str_all (fun c => negb (Ascii.eqb c old)) s = true ->
  str_replace old new s = s.
Proof.
  induction s as [|c s IH]; simpl; [done|].
  rewrite andb_true_iff, negb_true_iff. intros [-> Hs]. by rewrite IH.
Qed.

Lemma str_rstrip_no_space (s : string) :
  str_all (fun c => negb (chr_isspace c)) s = true -> str_rstrip s = s.
Proof.
  induction s as [|c s IH]; simpl; [done|].
  rewrite andb_true_iff, negb_true_iff. intros [Hc Hs].
  rewrite (IH Hs), Hc. by destruct s.
Qed.

Lemma chr_is09_facts (c : ascii) :
  chr_is09 c = true ->
  chr_isdigit c = true /\ chr_isspace c = false
  /\ Ascii.eqb c " " = false /\ Ascii.eqb c "-" = false
  /\ Ascii.eqb c "(" = false /\ Ascii.eqb c ")" = false
  /\ Ascii.eqb c "+" = false.
Proof.
  destruct c as [[] [] [] [] [] [] [] []]; vm_compute;
    first [discriminate | intros _; repeat split; reflexivity].
Qed.

Lemma str_isdigit_all (s : string) :
  str_isdigit s = true <-> s <> "" /\ str_all chr_isdigit s = true.
Proof.
  destruct s; simpl; split; try done.
  - by intros [? _].
  - by intros [_ ?].
Qed.

(** A leading "+" leaves [normalize_number] with one test only. *)
Lemma normalize_number_in_plus (table : gmap string country_data)
    (raw_number country : string) (cd : country_data) :
  raw_number <> "" ->
  table !! country = Some cd ->
  str_startswith (clean raw_number) "+" = true ->
  normalize_number_in table raw_number country
  = if str_isdigit (str_replace "+" "" (clean raw_number))
    then Some (clean raw_number) else None.
Proof.
  intros Hraw Hc Hplus. unfold normalize_number_in.
  destruct (String.eqb_spec raw_number ""); [done|].
  by rewrite Hc, Hplus.
Qed.

Lemma clean_canonical (s : string) : is_canonical s = true -> clean s = s.
Proof.
  destruct s as [|c rest]; simpl; [done|].
  rewrite !andb_true_iff. intros [[Hc _] Hall].
  apply Ascii.eqb_eq in Hc as ->.
  assert (Hno : forall old, (forall d, chr_is09 d = true -> Ascii.eqb d old = false) ->
                str_all (fun d => negb (Ascii.eqb d old)) rest = true).
  { intros old Hold. apply (str_all_impl chr_is09); [|done].
    intros d Hd. by rewrite (Hold d Hd). }
  assert (Hsp : str_all (fun d => negb (chr_isspace d)) rest = true).
  { apply (str_all_impl chr_is09); [|done].
    intros d Hd. by destruct (chr_is09_facts d Hd) as (_ & -> & _). }
  unfold clean, str_strip.
  assert (Hstrip : str_rstrip (str_lstrip (String "+" rest)) = String "+" rest).
  { change (str_lstrip (String "+" rest)) with (String "+" rest).
    apply str_rstrip_no_space. simpl. by rewrite Hsp. }
  rewrite Hstrip. simpl.
  rewrite (str_replace_absent " "), (str_replace_absent "-"),
    (str_replace_absent "("), (str_replace_absent ")"); [done|..];
    apply Hno; intros d Hd;
    destruct (chr_is09_facts d Hd) as (_ & _ & ? & ? & ? & ? & _); done.
Qed.

(** The loop takes the first pattern in list order that is a prefix. *)
Lemma scan_patterns_first (country_code cleaned : string)
    (before : list string) (p : string) (after : list string) :
  Forall (fun q => str_startswith cleaned q = false) before ->
  str_startswith cleaned p = true ->
  scan_patterns country_code cleaned (before ++ p :: after)
  = Some (if String.eqb p (str_replace "+" "" country_code)
          then "+" +:+ cleaned
          else country_code +:+ str_drop (String.length p) cleaned).
Proof.
  intros Hbefore Hp. induction Hbefore as [|q before Hq _ IH]; simpl.
  - rewrite Hp. by destruct (String.eqb _ _).
  - by rewrite Hq.
Qed.

Lemma scan_patterns_none (country_code cleaned : string) (pats : list string) :
  Forall (fun q => str_startswith cleaned q = false) pats ->
  scan_patterns country_code cleaned pats = None.
Proof. induction 1 as [|q pats Hq _ IH]; simpl; [done|]. by rewrite Hq. Qed.

(** ** The normaliser: results *)

(** C1: for Turkey (code "+90", patterns "90", "05", "5") the spelling
    "905551234567" is normalised to "+905551234567"; for "5551234567" and
    "05551234567" the function returns "+90551234567", one digit short of
    the number the claim names, because the matched prefixes "5" and "05"
    are cut off together with the leading 5 of the subscriber number. *)
Theorem normalize_number_turkey_examples :
  COUNTRY_CODES !! "Turkey"
    = Some (CountryData "+90" ["90"; "05"; "5"] "Turkish mobile numbers")
  /\ normalize_number "905551234567" "Turkey" = Some "+905551234567"
  /\ normalize_number "5551234567" "Turkey" = Some "+90551234567"
  /\ normalize_number "05551234567" "Turkey" = Some "+90551234567".
Proof. repeat split; vm_compute; reflexivity. Qed.

(** C2: a cleaned string with a leading "+" is returned when what is left
    after removing every "+" is a digit string, so "+1+2", whose remainder
    "1+2" is not a digit string, is returned and not rejected. *)
Theorem normalize_number_interior_plus :
  clean "+1+2" = "+1+2"
  /\ str_isdigit (str_drop 1 (clean "+1+2")) = false
  /\ normalize_number "+1+2" "Turkey" = Some "+1+2".
Proof. repeat split; vm_compute; reflexivity. Qed.

(** C3, as stated, fails: a country that is not a key of the table makes
    the function return None also for a canonical input. *)
Lemma normalize_number_unknown_country :
  is_canonical "+905551234567" = true
  /\ normalize_number "+905551234567" "Atlantis" = None.
Proof. split; vm_compute; reflexivity. Qed.

(** C3, amended: for every input of the shape [+digits] and every country
    that is a key of COUNTRY_CODES, normalize_number returns the input
    unchanged, whichever country that is. *)
Theorem normalize_number_canonical_id (raw_number country : string) :
  is_canonical raw_number = true ->
  is_Some (COUNTRY_CODES !! country) ->
  normalize_number raw_number country = Some raw_number.
Proof.
  intros Hcan [cd Hcd]. unfold normalize_number.
  pose proof (clean_canonical _ Hcan) as Hclean.
  destruct raw_number as [|c rest]; [done|].
  simpl in Hcan. rewrite !andb_true_iff, negb_true_iff in Hcan.
  destruct Hcan as [[Hc Hne] Hall]. apply Ascii.eqb_eq in Hc as ->.
  rewrite (normalize_number_in_plus _ _ _ cd); [|done|done|by rewrite Hclean].
  rewrite Hclean.
  change (str_replace "+" "" (String "+" rest)) with (str_replace "+" "" rest).
  rewrite str_replace_absent.
  - assert (str_isdigit rest = true) as ->; [|done].
    apply str_isdigit_all. split.
    + intros ->. by rewrite String.eqb_refl in Hne.
    + apply (str_all_impl chr_is09); [|done].
      intros d Hd. by destruct (chr_is09_facts d Hd) as (-> & _).
  - apply (str_all_impl chr_is09); [|done].
    intros d Hd. by destruct (chr_is09_facts d Hd) as (_ & _ & _ & _ & _ & _ & ->).
Qed.

Lemma normalize_number_canonical_id_witness :
  normalize_number "+905551234567" "Germany" = Some "+905551234567".
Proof.
  apply normalize_number_canonical_id.
  - vm_compute; reflexivity.
  - exists (CountryData "+49" ["49"; "01"] "German mobile numbers").
    vm_compute; reflexivity.
Defined.

(** C4: the patterns of a country are tried in list order and the first
    one that is a prefix of the cleaned digit string decides the result,
    whatever later patterns would match: the result is the one computed
    from that pattern. *)
Theorem normalize_number_first_match (table : gmap string country_data)
    (raw_number country : string) (cd : country_data)
    (before : list string) (p : string) (after : list string) :
  raw_number <> "" ->
  table !! country = Some cd ->
  str_startswith (clean raw_number) "+" = false ->
  str_isdigit (clean raw_number) = true ->
  patterns cd = before ++ p :: after ->
  Forall (fun q => str_startswith (clean raw_number) q = false) before ->
  str_startswith (clean raw_number) p = true ->
  normalize_number_in table raw_number country
  = Some (if String.eqb p (str_replace "+" "" (code cd))
          then "+" +:+ clean raw_number
          else code cd +:+ str_drop (String.length p) (clean raw_number)).
Proof.
  intros Hraw Hc Hplus Hdig Hpats Hbefore Hp. unfold normalize_number_in.
  destruct (String.eqb_spec raw_number ""); [done|].
  rewrite Hc, Hplus, Hdig, Hpats. simpl.
  by apply scan_patterns_first.
Qed.

(** With the patterns "5", "55" in this order the input "5551234567" is
    decided by "5": one character is cut off, not two. *)
Lemma normalize_number_first_match_witness :
  normalize_number_in {[ "Test" := CountryData "+90" ["5"; "55"] "" ]}
    "5551234567" "Test"
  = Some ("+90" +:+ str_drop (String.length "5") "5551234567").
Proof.
  refine (normalize_number_first_match
            {[ "Test" := CountryData "+90" ["5"; "55"] "" ]}
            "5551234567" "Test" (CountryData "+90" ["5"; "55"] "")
            [] "5" ["55"] _ _ _ _ _ _ _).
  - discriminate.
  - vm_compute; reflexivity.
  - vm_compute; reflexivity.
  - vm_compute; reflexivity.
  - reflexivity.
  - constructor.
  - vm_compute; reflexivity.
Defined.

(** C10: the legacy Turkish normaliser agrees with the general one at the
    country "Turkey" on every input. *)
Theorem normalize_tr_number_is_normalize_number (raw_number : string) :
  normalize_tr_number raw_number = normalize_number raw_number "Turkey".
Proof. reflexivity. Qed.

(** ** Reading the recipients *)

Lemma valid_entry_no_inner_plus (line : string) :
  no_inner_plus line = true -> valid_entry line = plus_then_digits line.
Proof.
  unfold no_inner_plus, valid_entry, plus_then_digits.
  destruct line as [|c rest]; [done|]. simpl. intros Hrest.
  destruct (Ascii.eqb_spec c "+") as [->|Hc]; [|by rewrite !andb_false_l].
  simpl. unfold str_drop in Hrest. by rewrite str_replace_absent.
Qed.

(** Without a "+" after the first character, a cleaned string with a
    leading "+" is returned exactly when digits, and only digits, follow. *)
Lemma normalize_number_in_plus_then_digits (table : gmap string country_data)
    (raw_number country : string) (cd : country_data) :
  raw_number <> "" ->
  table !! country = Some cd ->
  str_startswith (clean raw_number) "+" = true ->
  no_inner_plus (clean raw_number) = true ->
  normalize_number_in table raw_number country
  = if str_isdigit (str_drop 1 (clean raw_number))
    then Some (clean raw_number) else None.
Proof.
  intros Hraw Hc Hplus Hinner.
  rewrite (normalize_number_in_plus _ _ _ cd Hraw Hc Hplus).
  pose proof (valid_entry_no_inner_plus _ Hinner) as Hvalid.
  unfold valid_entry, plus_then_digits in Hvalid.
  rewrite Hplus in Hvalid. cbn [andb] in Hvalid. by rewrite Hvalid.
Qed.


(** What the loop does with every line, whatever the lines are. *)
Lemma recipients_loop_spec (raw_lines : list string) :
  recipients_loop raw_lines
  = (List.filter
       (fun line => negb (String.eqb line "" || str_startswith line "#")
                    && valid_entry line)
       (map str_strip raw_lines),
     map skip_message
       (List.filter
          (fun line => negb (String.eqb line "" || str_startswith line "#")
                       && negb (valid_entry line))
          (map str_strip raw_lines))).
Proof.
  induction raw_lines as [|raw_line rest IH]; [done|].
  cbn [recipients_loop map List.filter]. rewrite IH.
  destruct (String.eqb (str_strip raw_line) "" || str_startswith (str_strip raw_line) "#");
    simpl; [done|].
  by destruct (valid_entry (str_strip raw_line)).
Qed.





(** ** Reading the message *)

Lemma str_lstrip_head (s : string) :
  match str_lstrip s with
  | EmptyString => True
  | String c _ => chr_isspace c = false
  end.
Proof.
  induction s as [|c s IH]; simpl; [done|].
  destruct (chr_isspace c) eqn:Hc; [done|]. by simpl.
Qed.

Lemma str_rstrip_head (s : string) :
  match s with
  | EmptyString => True
  | String c _ => chr_isspace c = false
  end ->
  str_lstrip (str_rstrip s) = str_rstrip s.
Proof.
  destruct s as [|c s]; simpl; [done|]. intros Hc.
  destruct (str_rstrip s); rewrite ?Hc; simpl; by rewrite Hc.
Qed.

Lemma str_rstrip_idemp (s : string) : str_rstrip (str_rstrip s) = str_rstrip s.
Proof.
  induction s as [|c s IH]; simpl; [done|].
  destruct (str_rstrip s) as [|d r] eqn:Hr.
  - destruct (chr_isspace c) eqn:Hc; simpl; [done|]. by rewrite Hc.
  - cbn [str_rstrip]. cbn [str_rstrip] in IH. by rewrite IH.
Qed.

(** Stripping a stripped string changes nothing. *)
Lemma str_strip_idemp (s : string) : str_strip (str_strip s) = str_strip s.
Proof.
  unfold str_strip.
  rewrite (str_rstrip_head (str_lstrip s) (str_lstrip_head s)).
  apply str_rstrip_idemp.
Qed.

(** C9, as stated, fails: with a message file alone the function returns
    the file's content only when the file exists, and an inline message
    that is the empty string counts as no message. *)
Lemma read_message_missing_file_or_empty_text :
  read_message ∅ None (Some "message.txt")
    = Raise (FileNotFoundError "Message file not found: message.txt")
  /\ read_message ∅ (Some "") None
    = Raise (ValueError "A message is required. Use --message or --message-file.").
Proof. split; vm_compute; reflexivity. Qed.

(** C9, amended: read_message raises ValueError if and only if a
    non-empty inline message and a message file are both given, or
    neither is given; with a file and no (or an empty) inline message it
    returns the stripped content of the file when the file exists and
    raises FileNotFoundError when it does not; with a non-empty inline
    message alone it returns that text as it is; and stripping is
    idempotent. *)
Theorem read_message_cases (fs : filesystem) (message : option string)
    (path : string) (c : ascii) (text : string) :
  (forall message_file,
     is_ValueError (read_message fs message message_file)
     = truthy message && bool_decide (is_Some message_file)
       || negb (truthy message) && negb (bool_decide (is_Some message_file)))
  /\ read_message fs None (Some path)
     = match fs !! path with
       | Some content => Return (str_strip content)
       | None => Raise (FileNotFoundError ("Message file not found: " +:+ path))
       end
  /\ read_message fs (Some "") (Some path) = read_message fs None (Some path)
  /\ read_message fs (Some (String c text)) None = Return (String c text)
  /\ str_strip (str_strip text) = str_strip text.
Proof.
  repeat split.
  - intros message_file. unfold read_message.
    destruct message as [[|d m]|], message_file as [p|]; simpl;
      rewrite ?bool_decide_eq_true_2, ?bool_decide_eq_false_2
        by (try (eexists; reflexivity); try (intros [? ?]; discriminate));
      simpl; try reflexivity; by destruct (fs !! p).
  - apply str_strip_idemp.
Qed.

(** ** The dispatchers *)

Lemma outcomes_app (t1 t2 : list event) :
  outcomes (t1 ++ t2) = outcomes t1 ++ outcomes t2.
Proof. apply omap_app. Qed.

Lemma attempted_app (t1 t2 : list event) :
  attempted (t1 ++ t2) = attempted t1 ++ attempted t2.
Proof. apply omap_app. Qed.

Lemma visited_app (t1 t2 : list event) :
  visited (t1 ++ t2) = visited t1 ++ visited t2.
Proof. apply omap_app. Qed.

Lemma pacing_app (t1 t2 : list event) :
  pacing (t1 ++ t2) = pacing t1 ++ pacing t2.
Proof. apply omap_app. Qed.

(** A printed line settles no outcome, is no call and no sleep. *)
Ltac skip_print :=
  repeat first
    [ progress change (outcomes (Print ?l :: ?t)) with (outcomes t)
    | progress change (attempted (Print ?l :: ?t)) with (attempted t)
    | progress change (visited (Print ?l :: ?t)) with (visited t)
    | progress change (pacing (Print ?l :: ?t)) with (pacing t)
    | progress change (outcomes [Print ?l]) with (@nil SendOutcome)
    | progress change (attempted [Print ?l]) with (@nil string)
    | progress change (visited [Print ?l]) with (@nil string) ].

Lemma trace_of_triple {W A} (r : result A) (w : W) (t : list event) :
  trace_of (r, w, t) = t.
Proof. reflexivity. Qed.

Lemma outcome_value_triple {W A} (r : result A) (w : W) (t : list event) :
  outcome_value (r, w, t) = r.
Proof. reflexivity. Qed.

Lemma final_world_triple {W A} (r : result A) (w : W) (t : list event) :
  final_world (r, w, t) = w.
Proof. reflexivity. Qed.

Section DispatchFacts.
Context {World : Type}.
Variable env : operation -> World -> option string * World.
Variable quote_plus : string -> string.

(** *** The pywhatkit loop *)

Section Pywhatkit.
Variables (total : nat) (message : string) (per_send_wait_seconds : Z)
          (tab_close : bool) (close_time_seconds : Z).

Let loop := send_loop env total message per_send_wait_seconds tab_close
              close_time_seconds.
Let send_op (phone_number : string) : operation :=
  sendwhatmsg_instantly phone_number message per_send_wait_seconds tab_close
    close_time_seconds.

Let block := send_block total message per_send_wait_seconds tab_close
               close_time_seconds.

Lemma send_loop_cons (index : nat) (phone_number : string)
    (rest : list string) (w : World) :
  loop index (phone_number :: rest) w
  = let answer := env (send_op phone_number) w in
    let after := loop (S index) rest answer.2 in
    (outcome_value after, final_world after,
     block index phone_number answer.1 ++ trace_of after).
Proof.
  unfold loop, block, send_block, send_op. cbn [send_loop].
  unfold bind, try_except, call, print, print_err, sleep.
  destruct (env _ w) as [[reason|] w1]; cbn;
    by destruct (send_loop _ _ _ _ _ _ _ _ w1) as [[r w2] t].
Qed.

Lemma send_loop_returns (index : nat) (recipients : list string) (w : World) :
  outcome_value (loop index recipients w) = Return tt.
Proof.
  revert index w. induction recipients as [|p rest IH]; intros index w; [done|].
  rewrite send_loop_cons. cbn. apply IH.
Qed.

Lemma send_loop_app (index : nat) (xs ys : list string) (w : World) :
  loop index (xs ++ ys) w
  = let first := loop index xs w in
    let second := loop (index + length xs) ys (final_world first) in
    (outcome_value second, final_world second, trace_of first ++ trace_of second).
Proof.
  revert index w. induction xs as [|p xs IH]; intros index w.
  - cbn. rewrite Nat.add_0_r. by destruct (loop index ys w) as [[r w2] t].
  - rewrite <-app_comm_cons, !send_loop_cons. cbn zeta.
    rewrite IH. cbn. rewrite Nat.add_succ_r, <-app_assoc. done.
Qed.

Lemma send_loop_outcomes_length (index : nat) (recipients : list string)
    (w : World) :
  length (outcomes (trace_of (loop index recipients w))) = length recipients.
Proof.
  revert index w. induction recipients as [|p rest IH]; intros index w; [done|].
  rewrite send_loop_cons. cbn zeta. unfold trace_of at 1. cbn [snd].
  rewrite outcomes_app, length_app, IH. unfold block, send_block.
  by destruct (env _ w).1.
Qed.

Lemma send_loop_attempted (index : nat) (recipients : list string) (w : World) :
  attempted (trace_of (loop index recipients w)) = recipients.
Proof.
  revert index w. induction recipients as [|p rest IH]; intros index w; [done|].
  rewrite send_loop_cons. cbn zeta. unfold trace_of at 1. cbn [snd].
  rewrite attempted_app, IH. unfold block, send_block.
  by destruct (env _ w).1.
Qed.

Lemma send_loop_pacing (index : nat) (recipients : list string) (w : World) :
  pacing (trace_of (loop index recipients w))
  = flat_map (fun o => [inl o; inr (settle_pywhatkit per_send_wait_seconds o)])
      (outcomes (trace_of (loop index recipients w))).
Proof.
  revert index w. induction recipients as [|p rest IH]; intros index w; [done|].
  rewrite send_loop_cons. cbn zeta. unfold trace_of at 1 3. cbn [snd].
  rewrite pacing_app, outcomes_app, flat_map_app, IH. unfold block, send_block.
  by destruct (env _ w).1.
Qed.
End Pywhatkit.

(** *** The single-tab loop *)

Section SingleTab.
Variables (total : nat) (message : string) (timeout : Z).

Let loop := single_tab_loop env quote_plus total message timeout.
Let attempt (phone_number : string) : M unit :=
  open_chat_and_send env (chat_url quote_plus phone_number message) timeout.

Lemma single_tab_loop_cons (index : nat) (phone_number : string)
    (rest : list string) (w : World) :
  loop index (phone_number :: rest) w
  = let tried := attempt phone_number w in
    let after := loop (S index) rest (final_world tried) in
    (outcome_value after, final_world after,
     Print (sending_line index total phone_number)
     :: trace_of tried ++ recovery phone_number (outcome_value tried)
        ++ trace_of after).
Proof.
  unfold loop, attempt. cbn [single_tab_loop].
  unfold bind at 1 2. unfold try_except, print, print_err, sleep.
  destruct (open_chat_and_send _ _ _ w) as [[[[]|e] w1] t1]; cbn;
    destruct (single_tab_loop _ _ _ _ _ _ _ w1) as [[r w2] t]; cbn;
    by rewrite <-?app_assoc.
Qed.

(** One attempt settles one outcome, visits one address, and sleeps
    3 seconds exactly when it sent. *)
Lemma attempt_facts (url : string) (w : World) :
  let tried := open_chat_and_send env url timeout w in
  outcomes (trace_of tried) = [outcome_of_attempt (outcome_value tried)]
  /\ visited (trace_of tried) = [url]
  /\ pacing (trace_of tried)
     = inl (outcome_of_attempt (outcome_value tried))
       :: match outcome_value tried with
          | Return _ => [inr 3%Z]
          | Raise _ => []
          end.
Proof.
  unfold open_chat_and_send, bind, call, sleep.
  destruct (env (driver_get url) w) as [[r1|] w1]; [done|].
  destruct (env (wait_until_present timeout message_box) w1) as [[r2|] w2]; [done|].
  destruct (env (find_element message_box) w2) as [[r3|] w3]; [done|].
  destruct (env (send_keys_ENTER message_box) w3) as [[r4|] w4]; done.
Qed.

Lemma single_tab_loop_returns (index : nat) (recipients : list string)
    (w : World) :
  outcome_value (loop index recipients w) = Return tt.
Proof.
  revert index w. induction recipients as [|p rest IH]; intros index w; [done|].
  rewrite single_tab_loop_cons. cbn. apply IH.
Qed.

Lemma single_tab_loop_app (index : nat) (xs ys : list string) (w : World) :
  loop index (xs ++ ys) w
  = let first := loop index xs w in
    let second := loop (index + length xs) ys (final_world first) in
    (outcome_value second, final_world second, trace_of first ++ trace_of second).
Proof.
  revert index w. induction xs as [|p xs IH]; intros index w.
  - cbn. rewrite Nat.add_0_r. by destruct (loop index ys w) as [[r w2] t].
  - rewrite <-app_comm_cons, !single_tab_loop_cons. cbn zeta.
    rewrite IH. cbn. rewrite Nat.add_succ_r, <-!app_assoc. done.
Qed.

Lemma outcomes_recovery (phone_number : string) (r : result unit) :
  outcomes (recovery phone_number r) = [].
Proof. by destruct r. Qed.

Lemma visited_recovery (phone_number : string) (r : result unit) :
  visited (recovery phone_number r) = [].
Proof. by destruct r. Qed.

Lemma single_tab_loop_outcomes_length (index : nat)
    (recipients : list string) (w : World) :
  length (outcomes (trace_of (loop index recipients w))) = length recipients.
Proof.
  revert index w. induction recipients as [|p rest IH]; intros index w; [done|].
  rewrite single_tab_loop_cons. cbn zeta. unfold trace_of at 1. cbn [snd].
  skip_print.
  rewrite !outcomes_app, outcomes_recovery, !length_app, IH. unfold attempt.
  destruct (attempt_facts (chat_url quote_plus p message) w) as (-> & _).
  done.
Qed.

Lemma single_tab_loop_visited (index : nat) (recipients : list string)
    (w : World) :
  visited (trace_of (loop index recipients w))
  = map (fun phone_number => chat_url quote_plus phone_number message) recipients.
Proof.
  revert index w. induction recipients as [|p rest IH]; intros index w; [done|].
  rewrite single_tab_loop_cons. cbn zeta. unfold trace_of at 1. cbn [snd].
  skip_print.
  rewrite !visited_app, visited_recovery, IH. unfold attempt.
  destruct (attempt_facts (chat_url quote_plus p message) w) as (_ & -> & _).
  done.
Qed.

Lemma single_tab_loop_pacing (index : nat) (recipients : list string)
    (w : World) :
  pacing (trace_of (loop index recipients w))
  = flat_map (fun o => [inl o; inr (settle_single_tab o)])
      (outcomes (trace_of (loop index recipients w))).
Proof.
  revert index w. induction recipients as [|p rest IH]; intros index w; [done|].
  rewrite single_tab_loop_cons. cbn zeta. unfold trace_of at 1 4. cbn [snd].
  skip_print.
  rewrite !pacing_app, !outcomes_app, outcomes_recovery, flat_map_app, IH.
  unfold attempt.
  destruct (attempt_facts (chat_url quote_plus p message) w) as (-> & _ & ->).
  by destruct (outcome_value (open_chat_and_send _ _ _ w)) as [[]|e].
Qed.
End SingleTab.

(** *** The whole functions *)

Lemma send_messages_to_recipients_run (recipients : list string)
    (message : string) (per_send_wait_seconds : Z) (tab_close : bool)
    (close_time_seconds : Z) (w : World) :
  recipients <> [] ->
  send_messages_to_recipients env recipients message per_send_wait_seconds
    tab_close close_time_seconds w
  = let looped := send_loop env (length recipients) message per_send_wait_seconds
                    tab_close close_time_seconds 1 recipients w in
    (Return tt, final_world looped,
     Print ("Starting to send message to " +:+ str_of_nat (length recipients)
              +:+ " recipient(s)...")
     :: trace_of looped ++ [Print "Done."]).
Proof.
  intros Hne. unfold send_messages_to_recipients.
  destruct recipients as [|p rest]; [done|].
  unfold bind, print.
  pose proof (send_loop_returns (length (p :: rest)) message per_send_wait_seconds
                tab_close close_time_seconds 1 (p :: rest) w) as Hret.
  destruct (send_loop _ _ _ _ _ _ _ _ w) as [[r w1] t].
  cbn in Hret. subst r. reflexivity.
Qed.

(** When the browser starts, the single-tab sender is its loop between
    two printed lines. *)
Lemma send_messages_single_tab_run (WEBDRIVER_MANAGER_AVAILABLE : bool)
    (recipients : list string) (message : string) (initial_wait_seconds : Z)
    (user_data_dir_path : option string) (w : World) (timeout : Z) :
  recipients <> [] ->
  let started := start_browser env WEBDRIVER_MANAGER_AVAILABLE
                   initial_wait_seconds user_data_dir_path w in
  outcome_value started = Return timeout ->
  send_messages_single_tab env quote_plus true WEBDRIVER_MANAGER_AVAILABLE
    recipients message initial_wait_seconds user_data_dir_path w
  = let looped := single_tab_loop env quote_plus (length recipients) message
                    timeout 1 recipients (final_world started) in
    (Return tt, final_world looped,
     trace_of started
     ++ Print ("Starting to send message to " +:+ str_of_nat (length recipients)
                 +:+ " recipient(s) in single-tab mode...")
        :: trace_of looped ++ [Print "Done."]).
Proof.
  intros Hne started Hstarted. unfold send_messages_single_tab.
  destruct recipients as [|p rest]; [done|]. cbn [negb].
  unfold bind at 1. subst started.
  destruct (start_browser _ _ _ _ w) as [[r0 w0] t0]. cbn in Hstarted. subst r0.
  unfold bind, print.
  pose proof (single_tab_loop_returns (length (p :: rest)) message timeout 1
                (p :: rest) w0) as Hret.
  cbn [final_world trace_of fst snd].
  destruct (single_tab_loop _ _ _ _ _ _ _ w0) as [[r w1] t].
  cbn in Hret. subst r. reflexivity.
Qed.

Lemma send_messages_after_failure (message : string) (per_send_wait_seconds : Z)
    (tab_close : bool) (close_time_seconds : Z)
    (xs : list string) (p : string) (ys : list string) (w : World)
    (reason : string) :
  let recipients := xs ++ p :: ys in
  let loop := send_loop env (length recipients) message per_send_wait_seconds
                tab_close close_time_seconds in
  let answer :=
    env (sendwhatmsg_instantly p message per_send_wait_seconds tab_close
           close_time_seconds) (final_world (loop 1 xs w)) in
  answer.1 = Some reason ->
  let run := send_messages_to_recipients env recipients message
               per_send_wait_seconds tab_close close_time_seconds w in
  outcome_value run = Return tt
  /\ length (outcomes (trace_of run)) = length recipients
  /\ outcomes (trace_of run) !! length xs = Some (Failed reason)
  /\ attempted (trace_of run) = recipients
  /\ trace_of run
     = Print ("Starting to send message to " +:+ str_of_nat (length recipients)
                +:+ " recipient(s)...")
       :: trace_of (loop 1 xs w)
          ++ send_block (length recipients) message per_send_wait_seconds tab_close
               close_time_seconds (S (length xs)) p (Some reason)
          ++ trace_of (loop (S (S (length xs))) ys answer.2)
          ++ [Print "Done."].
Proof.
  intros recipients loop answer Hanswer run.
  assert (Hne : recipients <> []) by (subst recipients; by destruct xs).
  assert (Hrun : run = (Return tt, final_world (loop 1 recipients w),
                        Print ("Starting to send message to "
                                 +:+ str_of_nat (length recipients)
                                 +:+ " recipient(s)...")
                        :: trace_of (loop 1 recipients w) ++ [Print "Done."])).
  { subst run. by rewrite (send_messages_to_recipients_run _ _ _ _ _ _ Hne). }
  assert (Hloop : trace_of (loop 1 recipients w)
                  = trace_of (loop 1 xs w)
                    ++ send_block (length recipients) message per_send_wait_seconds
                         tab_close close_time_seconds (S (length xs)) p (Some reason)
                    ++ trace_of (loop (S (S (length xs))) ys answer.2)).
  { subst recipients. unfold loop at 1. rewrite send_loop_app. cbn zeta.
    rewrite trace_of_triple, send_loop_cons. cbn zeta.
    rewrite trace_of_triple. fold loop. fold answer. by rewrite Hanswer. }
  assert (Htrace : trace_of run
                   = Print ("Starting to send message to "
                              +:+ str_of_nat (length recipients)
                              +:+ " recipient(s)...")
                     :: trace_of (loop 1 xs w)
                        ++ send_block (length recipients) message
                             per_send_wait_seconds tab_close close_time_seconds
                             (S (length xs)) p (Some reason)
                        ++ trace_of (loop (S (S (length xs))) ys answer.2)
                        ++ [Print "Done."]).
  { rewrite Hrun, trace_of_triple, Hloop. by rewrite <-!app_assoc. }
  split; [by rewrite Hrun|].
  rewrite Htrace.
  skip_print.
  rewrite !outcomes_app, !attempted_app.
  change (outcomes (send_block _ _ _ _ _ _ p (Some reason))) with [Failed reason].
  change (attempted (send_block _ _ _ _ _ _ p (Some reason))) with [p].
  skip_print.
  unfold loop. rewrite !send_loop_attempted.
  pose proof (send_loop_outcomes_length (length recipients) message
                per_send_wait_seconds tab_close close_time_seconds) as Hlen.
  repeat split.
  - rewrite !length_app, !Hlen. subst recipients. rewrite length_app. cbn. lia.
  - change ([Failed reason] ++ ?l) with (Failed reason :: l).
    apply list_lookup_middle. by rewrite Hlen.
  - by rewrite app_nil_r.
Qed.

Lemma single_tab_after_failure (total : nat) (message : string) (timeout : Z)
    (index : nat) (xs : list string) (p : string) (ys : list string)
    (v : World) (error : exn) :
  let loop := single_tab_loop env quote_plus total message timeout in
  let tried := open_chat_and_send env (chat_url quote_plus p message) timeout
                 (final_world (loop index xs v)) in
  outcome_value tried = Raise error ->
  let run := loop index (xs ++ p :: ys) v in
  outcome_value run = Return tt
  /\ length (outcomes (trace_of run)) = length (xs ++ p :: ys)
  /\ outcomes (trace_of run) !! length xs = Some (Failed (exn_str error))
  /\ visited (trace_of run)
     = map (fun phone_number => chat_url quote_plus phone_number message)
         (xs ++ p :: ys)
  /\ trace_of run
     = trace_of (loop index xs v)
       ++ Print (sending_line (index + length xs) total p)
          :: trace_of tried
          ++ [PrintErr (failed_line p error); Sleep 2]
          ++ trace_of (loop (S (index + length xs)) ys (final_world tried)).
Proof.
  intros loop tried Htried run.
  assert (Htrace : trace_of run
                   = trace_of (loop index xs v)
                     ++ Print (sending_line (index + length xs) total p)
                        :: trace_of tried
                        ++ [PrintErr (failed_line p error); Sleep 2]
                        ++ trace_of (loop (S (index + length xs)) ys
                                       (final_world tried))).
  { subst run. unfold loop at 1. rewrite single_tab_loop_app. cbn zeta.
    rewrite trace_of_triple, single_tab_loop_cons. cbn zeta.
    rewrite trace_of_triple. fold loop. fold tried. by rewrite Htried. }
  split; [apply single_tab_loop_returns|].
  split; [apply single_tab_loop_outcomes_length|].
  split; [|split; [apply single_tab_loop_visited|exact Htrace]].
  rewrite Htrace, outcomes_app.
  skip_print.
  rewrite outcomes_app.
  destruct (attempt_facts timeout (chat_url quote_plus p message)
              (final_world (loop index xs v))) as (Hout & _).
  fold tried in Hout. rewrite Hout, Htried.
  change ([outcome_of_attempt (Raise error)] ++ ?l) with (Failed (exn_str error) :: l).
  apply list_lookup_middle.
  unfold loop. by rewrite single_tab_loop_outcomes_length.
Qed.

(** A browser that started has settled no outcome, slept not at all
    and visited the start page only. *)
Lemma start_browser_quiet (WEBDRIVER_MANAGER_AVAILABLE : bool)
    (initial_wait_seconds : Z) (user_data_dir_path : option string)
    (w : World) (timeout : Z) :
  let started := start_browser env WEBDRIVER_MANAGER_AVAILABLE
                   initial_wait_seconds user_data_dir_path w in
  outcome_value started = Return timeout ->
  outcomes (trace_of started) = []
  /\ pacing (trace_of started) = []
  /\ visited (trace_of started) = ["https://web.whatsapp.com/"].
Proof.
  unfold start_browser, bind, try_except, call, ret, raise.
  destruct (truthy user_data_dir_path), WEBDRIVER_MANAGER_AVAILABLE; cbn [negb];
    repeat match goal with
           | |- context [env ?op ?w0] => destruct (env op w0) as [[?|] ?]; cbn
           end;
    done.
Qed.

Lemma single_tab_whole_after_failure (WEBDRIVER_MANAGER_AVAILABLE : bool)
    (message : string) (initial_wait_seconds : Z)
    (user_data_dir_path : option string) (timeout : Z)
    (xs : list string) (p : string) (ys : list string) (v : World)
    (error : exn) :
  let recipients := xs ++ p :: ys in
  let started := start_browser env WEBDRIVER_MANAGER_AVAILABLE
                   initial_wait_seconds user_data_dir_path v in
  let tab_loop := single_tab_loop env quote_plus (length recipients) message
                    timeout in
  let tried := open_chat_and_send env (chat_url quote_plus p message) timeout
                 (final_world (tab_loop 1 xs (final_world started))) in
  outcome_value started = Return timeout ->
  outcome_value tried = Raise error ->
  let tab_run := send_messages_single_tab env quote_plus true
                   WEBDRIVER_MANAGER_AVAILABLE recipients message
                   initial_wait_seconds user_data_dir_path v in
  outcome_value tab_run = Return tt
  /\ length (outcomes (trace_of tab_run)) = length recipients
  /\ outcomes (trace_of tab_run) !! length xs = Some (Failed (exn_str error))
  /\ visited (trace_of tab_run)
     = "https://web.whatsapp.com/"
       :: map (fun phone_number => chat_url quote_plus phone_number message)
            recipients
  /\ trace_of tab_run
     = trace_of started
       ++ Print ("Starting to send message to " +:+ str_of_nat (length recipients)
                   +:+ " recipient(s) in single-tab mode...")
          :: trace_of (tab_loop 1 xs (final_world started))
          ++ Print (sending_line (S (length xs)) (length recipients) p)
             :: trace_of tried
             ++ [PrintErr (failed_line p error); Sleep 2]
             ++ trace_of (tab_loop (S (S (length xs))) ys (final_world tried))
             ++ [Print "Done."].
Proof.
  intros recipients started tab_loop tried Hstarted Htried tab_run.
  assert (Hne : recipients <> []) by (subst recipients; by destruct xs).
  destruct (start_browser_quiet _ _ _ _ _ Hstarted) as (Hout0 & _ & Hvis0).
  fold started in Hout0, Hvis0.
  destruct (single_tab_after_failure (length recipients) message timeout 1
              xs p ys (final_world started) error Htried)
    as (_ & Hlen & Hk & Hvis & Htrace).
  fold recipients in Hlen, Hk, Hvis, Htrace. fold tab_loop in Hlen, Hk, Hvis, Htrace.
  fold tried in Htrace.
  assert (Hrun : tab_run
                 = (Return tt, final_world (tab_loop 1 recipients (final_world started)),
                    trace_of started
                    ++ Print ("Starting to send message to "
                                +:+ str_of_nat (length recipients)
                                +:+ " recipient(s) in single-tab mode...")
                       :: trace_of (tab_loop 1 recipients (final_world started))
                       ++ [Print "Done."])).
  { subst tab_run.
    by rewrite (send_messages_single_tab_run _ _ _ _ _ _ timeout Hne Hstarted). }
  rewrite Hrun, outcome_value_triple, trace_of_triple.
  rewrite outcomes_app, visited_app, Hout0, Hvis0.
  skip_print.
  rewrite outcomes_app, visited_app, Hvis.
  skip_print.
  rewrite !app_nil_r, !app_nil_l.
  repeat split; [exact Hlen|exact Hk|].
  rewrite Htrace. cbn [Nat.add].
  do 3 (rewrite <-?app_assoc; cbn [app]). reflexivity.
Qed.

(** C6: when the send fails for one recipient of a dispatch that
    reached its loop, there are still as many outcomes as recipients,
    the outcome of that recipient is the failure with the text of the
    error, and every recipient is attempted once: the trace is the one
    of the recipients before it, then the failure (one attempt, the
    line on stderr, the recovery sleep), then the loop over the
    recipients after it as usual.  This holds for the pywhatkit sender
    and for the single-tab sender. *)
Theorem dispatch_continues_after_failure (message : string)
    (per_send_wait_seconds : Z) (tab_close : bool) (close_time_seconds : Z)
    (WEBDRIVER_MANAGER_AVAILABLE : bool) (initial_wait_seconds : Z)
    (user_data_dir_path : option string) (timeout : Z)
    (xs : list string) (p : string) (ys : list string)
    (w v : World) (reason : string) (error : exn) :
  let recipients := xs ++ p :: ys in
  let loop := send_loop env (length recipients) message per_send_wait_seconds
                tab_close close_time_seconds in
  let answer :=
    env (sendwhatmsg_instantly p message per_send_wait_seconds tab_close
           close_time_seconds) (final_world (loop 1 xs w)) in
  let started := start_browser env WEBDRIVER_MANAGER_AVAILABLE
                   initial_wait_seconds user_data_dir_path v in
  let tab_loop := single_tab_loop env quote_plus (length recipients) message
                    timeout in
  let tried := open_chat_and_send env (chat_url quote_plus p message) timeout
                 (final_world (tab_loop 1 xs (final_world started))) in
  answer.1 = Some reason ->
  outcome_value started = Return timeout ->
  outcome_value tried = Raise error ->
  let run := send_messages_to_recipients env recipients message
               per_send_wait_seconds tab_close close_time_seconds w in
  let tab_run := send_messages_single_tab env quote_plus true
                   WEBDRIVER_MANAGER_AVAILABLE recipients message
                   initial_wait_seconds user_data_dir_path v in
  (outcome_value run = Return tt
   /\ length (outcomes (trace_of run)) = length recipients
   /\ outcomes (trace_of run) !! length xs = Some (Failed reason)
   /\ attempted (trace_of run) = recipients
   /\ trace_of run
      = Print ("Starting to send message to " +:+ str_of_nat (length recipients)
                 +:+ " recipient(s)...")
        :: trace_of (loop 1 xs w)
           ++ send_block (length recipients) message per_send_wait_seconds
                tab_close close_time_seconds (S (length xs)) p (Some reason)
           ++ trace_of (loop (S (S (length xs))) ys answer.2)
           ++ [Print "Done."])
  /\ (outcome_value tab_run = Return tt
      /\ length (outcomes (trace_of tab_run)) = length recipients
      /\ outcomes (trace_of tab_run) !! length xs = Some (Failed (exn_str error))
      /\ visited (trace_of tab_run)
         = "https://web.whatsapp.com/"
           :: map (fun phone_number => chat_url quote_plus phone_number message)
                recipients
      /\ trace_of tab_run
         = trace_of started
           ++ Print ("Starting to send message to "
                       +:+ str_of_nat (length recipients)
                       +:+ " recipient(s) in single-tab mode...")
              :: trace_of (tab_loop 1 xs (final_world started))
              ++ Print (sending_line (S (length xs)) (length recipients) p)
                 :: trace_of tried
                 ++ [PrintErr (failed_line p error); Sleep 2]
                 ++ trace_of (tab_loop (S (S (length xs))) ys (final_world tried))
                 ++ [Print "Done."]).
Proof.
  intros recipients loop answer started tab_loop tried Hanswer Hstarted Htried
    run tab_run.
  split.
  - exact (send_messages_after_failure message per_send_wait_seconds tab_close
             close_time_seconds xs p ys w reason Hanswer).
  - exact (single_tab_whole_after_failure WEBDRIVER_MANAGER_AVAILABLE message
             initial_wait_seconds user_data_dir_path timeout xs p ys v error
             Hstarted Htried).
Qed.

(** C7, amended: with no recipients the pywhatkit sender, and the
    single-tab sender when Selenium is available, print the line "No
    valid recipients found.", make no call at all, leave the world as
    it was and return without an exception. *)
Theorem dispatch_of_nothing (message : string) (per_send_wait_seconds : Z)
    (tab_close : bool) (close_time_seconds : Z)
    (WEBDRIVER_MANAGER_AVAILABLE : bool) (initial_wait_seconds : Z)
    (user_data_dir_path : option string) (w : World) :
  send_messages_to_recipients env [] message per_send_wait_seconds tab_close
    close_time_seconds w
  = (Return tt, w, [Print "No valid recipients found."])
  /\ send_messages_single_tab env quote_plus true WEBDRIVER_MANAGER_AVAILABLE
       [] message initial_wait_seconds user_data_dir_path w
     = (Return tt, w, [Print "No valid recipients found."])
  /\ outcomes [Print "No valid recipients found."] = []
  /\ attempted [Print "No valid recipients found."] = []
  /\ visited [Print "No valid recipients found."] = [].
Proof. repeat split. Qed.

(** C8, amended: in the trace of the pywhatkit sender every outcome is
    followed at once by a sleep, of max(20, per_send_wait_seconds + 10)
    seconds after a send that went through and of 5 seconds after one
    that failed; in the trace of the single-tab sender, once the
    browser has started, the sleeps are of 3 seconds and of 2 seconds. *)
Theorem dispatch_pacing (recipients : list string) (message : string)
    (per_send_wait_seconds : Z) (tab_close : bool) (close_time_seconds : Z)
    (WEBDRIVER_MANAGER_AVAILABLE : bool) (initial_wait_seconds : Z)
    (user_data_dir_path : option string) (timeout : Z) (w v : World) :
  let started := start_browser env WEBDRIVER_MANAGER_AVAILABLE
                   initial_wait_seconds user_data_dir_path v in
  outcome_value started = Return timeout ->
  let run := send_messages_to_recipients env recipients message
               per_send_wait_seconds tab_close close_time_seconds w in
  let tab_run := send_messages_single_tab env quote_plus true
                   WEBDRIVER_MANAGER_AVAILABLE recipients message
                   initial_wait_seconds user_data_dir_path v in
  pacing (trace_of run)
  = flat_map (fun o => [inl o; inr (settle_pywhatkit per_send_wait_seconds o)])
      (outcomes (trace_of run))
  /\ pacing (trace_of tab_run)
     = flat_map (fun o => [inl o; inr (settle_single_tab o)])
         (outcomes (trace_of tab_run)).
Proof.
  intros started Hstarted run tab_run.
  destruct recipients as [|p rest]; [done|]. split.
  - subst run. rewrite send_messages_to_recipients_run by done. cbn zeta.
    rewrite trace_of_triple.
    skip_print.
    rewrite pacing_app, outcomes_app, !app_nil_r.
    apply send_loop_pacing.
  - subst tab_run.
    rewrite (send_messages_single_tab_run _ _ _ _ _ _ timeout) by done.
    cbn zeta. rewrite trace_of_triple.
    destruct (start_browser_quiet _ _ _ _ _ Hstarted) as (Hout0 & Hpace0 & _).
    fold started. fold started in Hout0, Hpace0.
    rewrite pacing_app, outcomes_app, Hout0, Hpace0, !app_nil_l.
    skip_print.
    rewrite pacing_app, outcomes_app, !app_nil_r.
    apply single_tab_loop_pacing.
Qed.
End DispatchFacts.

(** The two example runs: the second of three numbers fails, the other
    two are sent. *)
Lemma dispatch_continues_after_failure_witness :
  (length (outcomes (trace_of example_run)) = 3
   /\ outcomes (trace_of example_run) !! 1 = Some (Failed "timed out")
   /\ attempted (trace_of example_run) = ["+1"; "+2"; "+3"])
  /\ (length (outcomes (trace_of example_tab_run)) = 3
      /\ outcomes (trace_of example_tab_run) !! 1 = Some (Failed "timed out")).
Proof.
  destruct (dispatch_continues_after_failure (flaky [8]) (fun text => text)
              "hi" 40 true 3 true 40 None 40 ["+1"] "+2" ["+3"] 7 0
              "timed out" (LibraryError "timed out") eq_refl eq_refl eq_refl)
    as [(_ & Hlen & Hk & Hatt & _) (_ & Hlen' & Hk' & _)].
  repeat split; assumption.
Defined.

(** C7, as stated, fails for the single-tab sender: when Selenium is not
    available it raises RuntimeError before it looks at the recipients,
    also when there are none. *)
Lemma single_tab_of_nothing_without_selenium :
  example_no_selenium
  = (Raise (RuntimeError
              "Selenium is not available. Install with: python -m pip install selenium"),
     0, []).
Proof. reflexivity. Qed.

(** C8, as stated, fails for the single-tab sender: in the example run,
    where the first and the third number are sent and the second fails,
    it sleeps 3, 2 and 3 seconds, where the pywhatkit sender with its wait
    of 40 seconds sleeps 50, 5 and 50. *)
Lemma single_tab_sleeps_3_and_2 :
  outcomes (trace_of example_tab_run) = [Sent; Failed "timed out"; Sent]
  /\ sleeps (trace_of example_tab_run) = [3; 2; 3]%Z
  /\ outcomes (trace_of example_run) = [Sent; Failed "timed out"; Sent]
  /\ sleeps (trace_of example_run) = [50; 5; 50]%Z.
Proof. repeat split; vm_compute; reflexivity. Qed.

Lemma dispatch_pacing_witness :
  pacing (trace_of example_tab_run)
  = [inl Sent; inr 3%Z; inl (Failed "timed out"); inr 2%Z; inl Sent; inr 3%Z].
Proof.
  destruct (dispatch_pacing (flaky [8]) (fun text => text) ["+1"; "+2"; "+3"]
              "hi" 40 true 3 true 40 None 40 7 0 eq_refl) as [_ Htab].
  exact Htab.
Defined.

(** * Further properties of the code *)

(** ** The normaliser *)

Lemma str_all_app (p : ascii -> bool) (s t : string) :
  str_all p (s +:+ t) = str_all p s && str_all p t.
Proof.
  induction s as [|c s IH]; simpl; [done|]. by rewrite IH, andb_assoc.
Qed.

Lemma str_all_drop (p : ascii -> bool) (n : nat) (s : string) :
  str_all p s = true -> str_all p (str_drop n s) = true.
Proof.
  revert s. induction n as [|n IH]; intros [|c s]; simpl; try done.
  rewrite andb_true_iff. intros [_ Hs]. by apply IH.
Qed.

Lemma str_app_cons (c : ascii) (s t : string) :
  String c s +:+ t = String c (s +:+ t).
Proof. reflexivity. Qed.

Lemma str_app_assoc (s t u : string) : (s +:+ t) +:+ u = s +:+ (t +:+ u).
Proof. induction s as [|c s IH]; [done|]. rewrite !str_app_cons. by f_equal. Qed.

Lemma str_replace_app (old : ascii) (new s t : string) :
  str_replace old new (s +:+ t) = str_replace old new s +:+ str_replace old new t.
Proof.
  induction s as [|c s IH]; simpl; [done|].
  destruct (Ascii.eqb c old); rewrite IH; [|done].
  by rewrite str_app_assoc.
Qed.

Lemma chr_isdigit_facts (c : ascii) :
  chr_isdigit c = true ->
  chr_isspace c = false
  /\ Ascii.eqb c " " = false /\ Ascii.eqb c "-" = false
  /\ Ascii.eqb c "(" = false /\ Ascii.eqb c ")" = false
  /\ Ascii.eqb c "+" = false.
Proof.
  destruct c as [[] [] [] [] [] [] [] []]; vm_compute;
    first [discriminate | intros _; repeat split; reflexivity].
Qed.

Lemma chr_isdigit_or_plus_facts (c : ascii) :
  chr_isdigit_or_plus c = true ->
  chr_isspace c = false
  /\ Ascii.eqb c " " = false /\ Ascii.eqb c "-" = false
  /\ Ascii.eqb c "(" = false /\ Ascii.eqb c ")" = false
  /\ chr_islinebreak c = false.
Proof.
  destruct c as [[] [] [] [] [] [] [] []]; vm_compute;
    first [discriminate | intros _; repeat split; reflexivity].
Qed.

(** Taking the "+" out of a string leaves digits exactly when the string
    was made of digits and "+". *)
Lemma str_all_digit_replace_plus (s : string) :
  str_all chr_isdigit (str_replace "+" "" s) = str_all chr_isdigit_or_plus s.
Proof.
  induction s as [|c s IH]; [done|]. cbn [str_replace str_all].
  unfold chr_isdigit_or_plus at 1.
  destruct (Ascii.eqb_spec c "+") as [->|Hc].
  - change ("" +:+ ?x) with x. by rewrite IH.
  - cbn [str_all]. by rewrite IH, orb_false_r.
Qed.

Lemma str_isdigit_app (s t : string) :
  str_isdigit s = true -> str_all chr_isdigit t = true ->
  str_isdigit (s +:+ t) = true.
Proof.
  intros [Hne Hs]%str_isdigit_all Ht. apply str_isdigit_all. split.
  - by destruct s.
  - by rewrite str_all_app, Hs, Ht.
Qed.

Lemma str_startswith_app (s t prefix : string) :
  str_startswith s prefix = true -> str_startswith (s +:+ t) prefix = true.
Proof.
  revert s. induction prefix as [|p prefix IH]; intros [|c s]; simpl; try done.
  rewrite !andb_true_iff. intros [? ?]. split; [done|by apply IH].
Qed.

Lemma valid_entry_chars (line : string) :
  valid_entry line = true ->
  line <> "" /\ str_startswith line "+" = true
  /\ str_all chr_isdigit_or_plus line = true.
Proof.
  unfold valid_entry. rewrite andb_true_iff.
  intros [Hplus [_ Hall]%str_isdigit_all]. repeat split; [|done|].
  - by destruct line.
  - by rewrite <-str_all_digit_replace_plus.
Qed.

(** A string of digits and "+" that does not start with a blank is left
    as it is by the cleaning chain. *)
Lemma clean_digits_and_plus (s : string) :
  str_all chr_isdigit_or_plus s = true -> clean s = s.
Proof.
  intros Hall.
  assert (Hno : forall old,
             (forall d, chr_isdigit_or_plus d = true -> Ascii.eqb d old = false) ->
             str_all (fun d => negb (Ascii.eqb d old)) s = true).
  { intros old Hold. apply (str_all_impl chr_isdigit_or_plus); [|done].
    intros d Hd. by rewrite (Hold d Hd). }
  assert (Hsp : str_all (fun d => negb (chr_isspace d)) s = true).
  { apply (str_all_impl chr_isdigit_or_plus); [|done].
    intros d Hd. by destruct (chr_isdigit_or_plus_facts d Hd) as (-> & _). }
  unfold clean, str_strip.
  assert (Hl : str_lstrip s = s).
  { destruct s as [|c s]; [done|]. simpl in Hsp |- *.
    apply andb_true_iff in Hsp as [Hc _]. apply negb_true_iff in Hc. by rewrite Hc. }
  rewrite Hl, (str_rstrip_no_space _ Hsp).
  rewrite (str_replace_absent " "), (str_replace_absent "-"),
    (str_replace_absent "("), (str_replace_absent ")"); [done|..];
    apply Hno; intros d Hd;
    destruct (chr_isdigit_or_plus_facts d Hd) as (_ & ? & ? & ? & ? & _); done.
Qed.

(** With a table whose dialling codes pass the recipients filter, so does
    every number the normaliser returns. *)
Lemma normalize_number_in_valid (table : gmap string country_data)
    (raw_number country result : string) :
  (forall cd, table !! country = Some cd -> valid_entry (code cd) = true) ->
  normalize_number_in table raw_number country = Some result ->
  valid_entry result = true.
Proof.
  intros Htable. unfold normalize_number_in.
  destruct (String.eqb raw_number ""); [done|].
  destruct (table !! country) as [cd|] eqn:Hcd; [|done].
  specialize (Htable cd eq_refl). cbn zeta.
  destruct (str_startswith (clean raw_number) "+") eqn:Hplus.
  { destruct (str_isdigit (str_replace "+" "" (clean raw_number))) eqn:Hdig; [|done].
    intros [= <-]. unfold valid_entry. by rewrite Hplus, Hdig. }
  destruct (str_isdigit (clean raw_number)) eqn:Hdig; [|done]. cbn [negb].
  apply str_isdigit_all in Hdig as [Hne Hall].
  assert (Hrep : str_replace "+" "" (clean raw_number) = clean raw_number).
  { apply str_replace_absent, (str_all_impl chr_isdigit); [|done].
    intros d Hd. by destruct (chr_isdigit_facts d Hd) as (_ & _ & _ & _ & _ & ->). }
  induction (patterns cd) as [|p pats IH]; [done|]. cbn [scan_patterns].
  destruct (str_startswith (clean raw_number) p); [|exact IH].
  destruct (String.eqb p (str_replace "+" "" (code cd))); intros [= <-].
  - change ("+" +:+ clean raw_number) with (String "+" (clean raw_number)).
    unfold valid_entry. cbn [str_startswith str_replace].
    change (Ascii.eqb "+" "+") with true. cbn [andb].
    change ("" +:+ ?x) with x. rewrite Hrep. by apply str_isdigit_all.
  - unfold valid_entry in Htable |- *. apply andb_true_iff in Htable as [Hc1 Hc2].
    rewrite (str_startswith_app _ _ _ Hc1), str_replace_app. cbn [andb].
    apply str_isdigit_app; [done|].
    rewrite str_replace_absent.
    + by apply str_all_drop.
    + apply (str_all_impl chr_isdigit); [|by apply str_all_drop].
      intros d Hd. by destruct (chr_isdigit_facts d Hd) as (_ & _ & _ & _ & _ & ->).
Qed.

Lemma COUNTRY_CODES_valid (country : string) (cd : country_data) :
  COUNTRY_CODES !! country = Some cd -> valid_entry (code cd) = true.
Proof.
  intros Hcd. unfold COUNTRY_CODES in Hcd.
  apply elem_of_list_to_map_2 in Hcd.
  repeat (apply elem_of_cons in Hcd as [[= -> ->]|Hcd]; [vm_compute; reflexivity|]).
  by apply elem_of_nil in Hcd.
Qed.

(** X1: every number normalize_number returns, for any input and any
    country, passes the test read_recipients_from_file applies to a
    line: it starts with "+" and is digits once every "+" is removed. *)
Theorem normalize_number_result_valid (raw_number country result : string) :
  normalize_number raw_number country = Some result ->
  valid_entry result = true.
Proof.
  apply normalize_number_in_valid. apply COUNTRY_CODES_valid.
Qed.

Lemma normalize_number_result_valid_witness :
  valid_entry "+4915112345678" = true.
Proof.
  apply (normalize_number_result_valid "(49) 151 1234-5678" "Germany").
  vm_compute; reflexivity.
Defined.

(** X2: normalising a number that normalize_number returned, for the same
    country, gives that number again. *)
Theorem normalize_number_idempotent (raw_number country result : string) :
  normalize_number raw_number country = Some result ->
  normalize_number result country = Some result.
Proof.
  intros Hres.
  pose proof (normalize_number_in_valid COUNTRY_CODES _ _ _
                (COUNTRY_CODES_valid country) Hres) as Hvalid.
  destruct (valid_entry_chars _ Hvalid) as (Hne & Hplus & Hall).
  pose proof (clean_digits_and_plus _ Hall) as Hclean.
  unfold normalize_number, normalize_number_in in Hres |- *.
  destruct (COUNTRY_CODES !! country) as [cd|];
    [|by destruct (String.eqb raw_number "")].
  destruct (String.eqb_spec result ""); [done|].
  cbn zeta. rewrite Hclean, Hplus.
  unfold valid_entry in Hvalid. rewrite Hplus in Hvalid. cbn [andb] in Hvalid.
  by rewrite Hvalid.
Qed.

Lemma normalize_number_idempotent_witness :
  normalize_number "+4915112345678" "Germany" = Some "+4915112345678".
Proof.
  apply (normalize_number_idempotent "(49) 151 1234-5678").
  vm_compute; reflexivity.
Defined.

(** X3: when the cleaned input holds a character that is neither a digit
    nor "+", normalize_number returns None, for any table and country. *)
Theorem normalize_number_rejects_other_characters
    (table : gmap string country_data) (raw_number country : string) :
  str_all chr_isdigit_or_plus (clean raw_number) = false ->
  normalize_number_in table raw_number country = None.
Proof.
  intros Hbad. unfold normalize_number_in.
  destruct (String.eqb raw_number ""); [done|].
  destruct (table !! country) as [cd|]; [|done]. cbn zeta.
  destruct (str_startswith (clean raw_number) "+").
  - destruct (str_isdigit (str_replace "+" "" (clean raw_number))) eqn:Hdig; [|done].
    apply str_isdigit_all in Hdig as [_ Hall].
    rewrite str_all_digit_replace_plus in Hall. congruence.
  - destruct (str_isdigit (clean raw_number)) eqn:Hdig; [|done].
    apply str_isdigit_all in Hdig as [_ Hall].
    assert (str_all chr_isdigit_or_plus (clean raw_number) = true); [|congruence].
    apply (str_all_impl chr_isdigit); [|done].
    intros d Hd. unfold chr_isdigit_or_plus. by rewrite Hd.
Qed.

Lemma normalize_number_rejects_other_characters_witness :
  normalize_number_in COUNTRY_CODES "0555 123 45 67 ext. 9" "Turkey" = None.
Proof.
  apply normalize_number_rejects_other_characters. vm_compute; reflexivity.
Defined.

Lemma scan_patterns_None_iff (country_code cleaned : string) (pats : list string) :
  scan_patterns country_code cleaned pats = None
  <-> Forall (fun q => str_startswith cleaned q = false) pats.
Proof.
  split; [|apply scan_patterns_none].
  induction pats as [|p pats IH]; [by constructor|]. cbn [scan_patterns].
  destruct (str_startswith cleaned p) eqn:Hp.
  - by destruct (String.eqb _ _).
  - intros H. constructor; [done|by apply IH].
Qed.

(** X4: a cleaned input of digits only is rejected exactly when none of
    the country's patterns is a prefix of it. *)
Theorem normalize_number_digits_rejected_iff
    (table : gmap string country_data) (raw_number country : string)
    (cd : country_data) :
  table !! country = Some cd ->
  str_isdigit (clean raw_number) = true ->
  normalize_number_in table raw_number country = None
  <-> Forall (fun q => str_startswith (clean raw_number) q = false) (patterns cd).
Proof.
  intros Hcd Hdig. unfold normalize_number_in.
  assert (Hraw : String.eqb raw_number "" = false).
  { destruct (String.eqb_spec raw_number "") as [->|]; [|done].
    by vm_compute in Hdig. }
  assert (Hplus : str_startswith (clean raw_number) "+" = false).
  { apply str_isdigit_all in Hdig as [_ Hall].
    destruct (clean raw_number) as [|c s]; [done|]. simpl in Hall |- *.
    apply andb_true_iff in Hall as [Hc _].
    destruct (chr_isdigit_facts c Hc) as (_ & _ & _ & _ & _ & ->). done. }
  rewrite Hraw, Hcd. cbn zeta. rewrite Hplus, Hdig. cbn [negb].
  apply scan_patterns_None_iff.
Qed.

Lemma normalize_number_digits_rejected_iff_witness :
  normalize_number_in COUNTRY_CODES "212 555 12 34" "Turkey" = None.
Proof.
  apply (normalize_number_digits_rejected_iff COUNTRY_CODES "212 555 12 34" "Turkey"
           (CountryData "+90" ["90"; "05"; "5"] "Turkish mobile numbers")).
  - vm_compute; reflexivity.
  - vm_compute; reflexivity.
  - vm_compute. repeat constructor.
Defined.

(** ** Reading the recipients: further properties *)

Lemma filter_sublist {A} (f : A -> bool) (l : list A) : sublist (List.filter f l) l.
Proof.
  induction l as [|x l IH]; simpl; [constructor|].
  destruct (f x); by constructor.
Qed.

Lemma filter_Forall {A} (f : A -> bool) (l : list A) :
  Forall (fun x => f x = true) (List.filter f l).
Proof.
  induction l as [|x l IH]; simpl; [constructor|].
  destruct (f x) eqn:Hx; [by constructor|done].
Qed.

Lemma filter_disjoint_length {A} (f g : A -> bool) (l : list A) :
  (forall x, f x = true -> g x = false) ->
  length (List.filter f l) + length (List.filter g l) <= length l.
Proof.
  intros Hfg. induction l as [|x l IH]; simpl; [done|].
  destruct (f x) eqn:Hx.
  - rewrite (Hfg x Hx). simpl. lia.
  - destruct (g x); simpl; lia.
Qed.

(** X5: when the file exists, read_recipients_from_file returns without
    an exception; every number it returns passes its validity test, the
    numbers are stripped lines of the file in file order, and no line
    gives both a number and a diagnostic. *)
Theorem read_recipients_from_file_sound (fs : filesystem)
    (file_path text : string) :
  fs !! file_path = Some text ->
  exists recipients printed,
    read_recipients_from_file fs file_path = (Return recipients, printed)
    /\ Forall (fun r => valid_entry r = true) recipients
    /\ sublist recipients (map str_strip (file_lines text))
    /\ length recipients + length printed <= length (file_lines text).
Proof.
  intros Hfile. unfold read_recipients_from_file. rewrite Hfile.
  rewrite recipients_loop_spec. eexists _, _. split; [reflexivity|].
  split; [|split].
  - eapply Forall_impl; [apply filter_Forall|].
    intros r Hr. cbv beta in Hr. by apply andb_true_iff in Hr as [_ ?].
  - apply filter_sublist.
  - rewrite length_map, <-(length_map str_strip (file_lines text)).
    apply filter_disjoint_length. intros line Hline.
    apply andb_true_iff in Hline as [_ ->]. by rewrite andb_false_r.
Qed.

Lemma read_recipients_from_file_sound_witness :
  exists recipients printed,
    read_recipients_from_file {[ "recipients.txt" := " +12345 " ]} "recipients.txt"
    = (Return recipients, printed)
    /\ Forall (fun r => valid_entry r = true) recipients
    /\ sublist recipients (map str_strip (file_lines " +12345 "))
    /\ length recipients + length printed <= length (file_lines " +12345 ").
Proof.
  apply (read_recipients_from_file_sound {[ "recipients.txt" := " +12345 " ]}
           "recipients.txt" " +12345 ").
  vm_compute; reflexivity.
Defined.

Lemma str_rstrip_app_newline (s : string) :
  str_rstrip (s +:+ String newline "") = str_rstrip s.
Proof.
  induction s as [|c s IH]; [done|].
  rewrite str_app_cons. cbn [str_rstrip]. by rewrite IH.
Qed.

Lemma valid_entry_strip (r : string) : valid_entry r = true -> str_strip r = r.
Proof.
  intros (_ & _ & Hall)%valid_entry_chars.
  assert (Hsp : str_all (fun d => negb (chr_isspace d)) r = true).
  { apply (str_all_impl chr_isdigit_or_plus); [|done].
    intros d Hd. by destruct (chr_isdigit_or_plus_facts d Hd) as (-> & _). }
  unfold str_strip.
  assert (Hl : str_lstrip r = r).
  { destruct r as [|c r]; [done|]. simpl in Hsp |- *.
    apply andb_true_iff in Hsp as [Hc _]. apply negb_true_iff in Hc. by rewrite Hc. }
  by rewrite Hl, str_rstrip_no_space.
Qed.

Lemma valid_entry_strip_newline (r : string) :
  valid_entry r = true -> str_strip (r +:+ String newline "") = r.
Proof.
  intros Hvalid. pose proof (valid_entry_strip _ Hvalid) as Hstrip.
  destruct (valid_entry_chars _ Hvalid) as (Hne & Hplus & _).
  unfold str_strip in Hstrip |- *.
  destruct r as [|c r]; [done|]. simpl in Hplus.
  apply andb_true_iff in Hplus as [->%Ascii.eqb_eq _].
  rewrite str_app_cons.
  change (str_lstrip (String "+" ?x)) with (String "+" x) in Hstrip |- *.
  rewrite <-str_app_cons. by rewrite str_rstrip_app_newline.
Qed.

Lemma valid_entry_kept (r : string) :
  valid_entry r = true ->
  String.eqb r "" || str_startswith r "#" = false.
Proof.
  intros (Hne & Hplus & _)%valid_entry_chars.
  destruct r as [|c r]; [done|]. simpl in Hplus |- *.
  by apply andb_true_iff in Hplus as [->%Ascii.eqb_eq _].
Qed.

Lemma chr_isdigit_or_plus_not_newline (c : ascii) :
  chr_isdigit_or_plus c = true -> Ascii.eqb c newline = false.
Proof.
  destruct c as [[] [] [] [] [] [] [] []]; vm_compute;
    first [discriminate | reflexivity].
Qed.

Lemma file_lines_line (x rest : string) :
  str_all chr_isdigit_or_plus x = true ->
  file_lines (x +:+ String newline rest)
  = (x +:+ String newline "") :: file_lines rest.
Proof.
  induction x as [|c x IH]; intros Hall.
  - change ("" +:+ ?y) with y. cbn [file_lines].
    by change (Ascii.eqb newline newline) with true.
  - simpl in Hall. apply andb_true_iff in Hall as [Hc Hall].
    rewrite !str_app_cons. cbn [file_lines].
    by rewrite (chr_isdigit_or_plus_not_newline c Hc), (IH Hall).
Qed.

Lemma file_lines_one (x : string) :
  x <> "" -> str_all chr_isdigit_or_plus x = true -> file_lines x = [x].
Proof.
  induction x as [|c x IH]; [done|]. intros _ Hall.
  simpl in Hall. apply andb_true_iff in Hall as [Hc Hall].
  cbn [file_lines]. rewrite (chr_isdigit_or_plus_not_newline c Hc).
  destruct x as [|d x]; [done|]. by rewrite IH.
Qed.

Lemma join_lines_cons (x y : string) (l : list string) :
  join_lines (x :: y :: l) = x +:+ String newline (join_lines (y :: l)).
Proof. reflexivity. Qed.

Lemma recipients_loop_join_lines (recipients : list string) :
  Forall (fun r => valid_entry r = true) recipients ->
  recipients_loop (file_lines (join_lines recipients)) = (recipients, []).
Proof.
  induction 1 as [|x l Hx Hl IH]; [done|].
  destruct (valid_entry_chars _ Hx) as (Hne & _ & Hall).
  destruct l as [|y l].
  - change (join_lines [x]) with x. rewrite (file_lines_one x Hne Hall).
    cbn [recipients_loop]. rewrite (valid_entry_strip _ Hx).
    by rewrite (valid_entry_kept _ Hx), Hx.
  - rewrite join_lines_cons, (file_lines_line _ _ Hall).
    cbn [recipients_loop]. rewrite IH, (valid_entry_strip_newline _ Hx).
    by rewrite (valid_entry_kept _ Hx), Hx.
Qed.

(** X6: a file that lists numbers which pass the validity test, one per
    line, is read back as exactly that list, with nothing printed. *)
Theorem read_recipients_from_file_round_trip (fs : filesystem)
    (file_path : string) (recipients : list string) :
  Forall (fun r => valid_entry r = true) recipients ->
  fs !! file_path = Some (join_lines recipients) ->
  read_recipients_from_file fs file_path = (Return recipients, []).
Proof.
  intros Hvalid Hfile. unfold read_recipients_from_file.
  by rewrite Hfile, recipients_loop_join_lines.
Qed.

Lemma read_recipients_from_file_round_trip_witness :
  read_recipients_from_file
    {[ "recipients.txt" := join_lines ["+905551234567"; "+4915112345678"] ]}
    "recipients.txt"
  = (Return ["+905551234567"; "+4915112345678"], []).
Proof.
  apply read_recipients_from_file_round_trip.
  - repeat constructor.
  - vm_compute; reflexivity.
Defined.

Lemma str_lstrip_hash (s : string) :
  str_startswith (str_lstrip s) "#" = true ->
  str_startswith (str_strip s) "#" = true.
Proof.
  unfold str_strip. destruct (str_lstrip s) as [|c t]; [done|].
  cbn [str_startswith]. rewrite andb_true_r. intros ->%Ascii.eqb_eq.
  cbn [str_rstrip]. by destruct (str_rstrip t).
Qed.

(** X7: the numbers read_recipients_from_file returns are the lines the
    graphical preview loads from the same file which pass the validity
    test, in the same order. *)
Theorem read_recipients_from_file_is_filtered_preview (fs : filesystem)
    (file_path text : string) :
  fs !! file_path = Some text ->
  (read_recipients_from_file fs file_path).1
  = Return (List.filter valid_entry (preview_lines_of_file (file_lines text))).
Proof.
  intros Hfile. unfold read_recipients_from_file. rewrite Hfile.
  rewrite recipients_loop_spec. cbn [fst]. f_equal.
  unfold preview_lines_of_file.
  induction (file_lines text) as [|raw_line rest IH]; [done|].
  cbn [map List.filter]. rewrite IH. clear IH.
  destruct (String.eqb (str_strip raw_line) "") eqn:Hempty; [done|].
  cbn [negb orb andb].
  destruct (str_startswith (str_lstrip raw_line) "#") eqn:Hhash.
  - by rewrite (str_lstrip_hash _ Hhash).
  - cbn [negb map List.filter].
    destruct (valid_entry (str_strip raw_line)) eqn:Hvalid.
    + pose proof (valid_entry_kept _ Hvalid) as Hkept.
      rewrite Hempty in Hkept. cbn [orb] in Hkept. by rewrite Hkept.
    + by rewrite andb_false_r.
Qed.

Lemma read_recipients_from_file_is_filtered_preview_witness :
  (read_recipients_from_file
     {[ "recipients.txt" := join_lines ["  # list"; "05551234567"; " +12345"] ]}
     "recipients.txt").1
  = Return ["+12345"].
Proof.
  apply (read_recipients_from_file_is_filtered_preview
           {[ "recipients.txt" := join_lines ["  # list"; "05551234567"; " +12345"] ]}
           "recipients.txt"
           (join_lines ["  # list"; "05551234567"; " +12345"])).
  vm_compute; reflexivity.
Defined.

(** ** The requirements of setup.py *)

(** X8: every requirement setup.py reads is a stripped, non-empty line of
    requirements.txt, in file order, and no line that starts with "#"
    gives one. *)
Theorem requirements_sound (raw_lines : list string) :
  Forall (fun r => r <> "" /\ str_strip r = r) (requirements raw_lines)
  /\ sublist (requirements raw_lines) (map str_strip raw_lines)
  /\ requirements (List.filter (fun line => str_startswith line "#") raw_lines) = [].
Proof.
  unfold requirements. split; [|split].
  - induction raw_lines as [|line rest IH]; [constructor|]. cbn [List.filter].
    destruct (String.eqb_spec (str_strip line) "") as [|Hne]; [done|].
    cbn [negb andb]. destruct (str_startswith line "#"); [done|].
    cbn [negb map]. constructor; [|done]. split; [done|apply str_strip_idemp].
  - induction raw_lines as [|line rest IH]; [constructor|]. cbn [List.filter map].
    destruct (negb _ && negb _); [by constructor|by constructor].
  - induction raw_lines as [|line rest IH]; [done|]. cbn [List.filter].
    destruct (str_startswith line "#") eqn:Hhash; [|done].
    cbn [List.filter]. rewrite Hhash, andb_false_r. exact IH.
Qed.

(** ** The preview: normalising and removing duplicates *)

Lemma unique_loop_spec (seen : gset string) (normalized : list string) :
  NoDup (unique_loop seen normalized)
  /\ (forall x, x ∈ unique_loop seen normalized <-> x ∈ normalized /\ x ∉ seen)
  /\ sublist (unique_loop seen normalized) normalized.
Proof.
  revert seen. induction normalized as [|num rest IH]; intros seen.
  - cbn. split; [constructor|]. split; [|constructor]. (set_unfold; intuition (subst; eauto; congruence)).
  - cbn [unique_loop]. destruct (decide (num ∈ seen)) as [Hin|Hout].
    + destruct (IH seen) as (Hnd & Hmem & Hsub).
      split; [done|]. split; [|by constructor].
      intros x. rewrite Hmem. (set_unfold; intuition (subst; eauto; congruence)).
    + destruct (IH ({[ num ]} ∪ seen)) as (Hnd & Hmem & Hsub).
      split; [|split; [|by constructor]].
      * constructor; [|done]. rewrite Hmem. (set_unfold; intuition (subst; eauto; congruence)).
      * intros x. rewrite elem_of_cons, Hmem.
        destruct (decide (x = num)) as [->|Hne]; (set_unfold; intuition (subst; eauto; congruence)).
Qed.

(** X9: the list normalize_preview_numbers keeps after removing
    duplicates has no number twice, holds exactly the numbers of the
    list it was made from, and keeps them in the order they had there. *)
Theorem unique_normalized_spec (normalized : list string) :
  NoDup (unique_normalized normalized)
  /\ (forall x, x ∈ unique_normalized normalized <-> x ∈ normalized)
  /\ sublist (unique_normalized normalized) normalized.
Proof.
  destruct (unique_loop_spec ∅ normalized) as (Hnd & Hmem & Hsub).
  split; [done|]. split; [|done]. intros x. rewrite (Hmem x). (set_unfold; intuition (subst; eauto; congruence)).
Qed.

Lemma unique_loop_snoc (seen : gset string) (normalized : list string)
    (num : string) :
  unique_loop seen (normalized ++ [num])
  = unique_loop seen normalized
    ++ (if decide (num ∈ seen \/ num ∈ normalized) then [] else [num]).
Proof.
  revert seen. induction normalized as [|y rest IH]; intros seen.
  - cbn. destruct (decide (num ∈ seen)) as [Hin|Hout].
    + by rewrite decide_True by (by left).
    + rewrite decide_False; [done|]. (set_unfold; intuition (subst; eauto; congruence)).
  - cbn [app unique_loop]. destruct (decide (y ∈ seen)) as [Hin|Hout].
    + rewrite IH. f_equal. apply decide_ext. (set_unfold; intuition (subst; eauto; congruence)).
    + rewrite IH. cbn [app]. do 2 f_equal. apply decide_ext. (set_unfold; intuition (subst; eauto; congruence)).
Qed.

(** X10: going through the numbers in order, a number that came before
    is dropped and a new one is put at the end: of equal numbers the
    first one stays where it is. *)
Theorem unique_normalized_snoc (normalized : list string) (num : string) :
  unique_normalized (normalized ++ [num])
  = if decide (num ∈ normalized)
    then unique_normalized normalized
    else unique_normalized normalized ++ [num].
Proof.
  unfold unique_normalized. rewrite unique_loop_snoc.
  destruct (decide (num ∈ normalized)) as [Hin|Hout].
  - rewrite decide_True by (by right). by rewrite app_nil_r.
  - rewrite decide_False; [done|]. (set_unfold; intuition (subst; eauto; congruence)).
Qed.

Lemma unique_loop_NoDup (seen : gset string) (normalized : list string) :
  NoDup normalized -> Forall (fun x => x ∉ seen) normalized ->
  unique_loop seen normalized = normalized.
Proof.
  intros Hnd. revert seen. induction Hnd as [|x l Hx Hnd IH]; intros seen Hseen; [done|].
  apply Forall_cons in Hseen as [Hxs Hl]. cbn [unique_loop].
  rewrite decide_False by done. f_equal. apply IH.
  apply Forall_forall. intros y Hy. rewrite Forall_forall in Hl.
  specialize (Hl y Hy). (set_unfold; intuition (subst; eauto; congruence)).
Qed.

(** X11: removing duplicates leaves a list without duplicates as it is,
    so doing it a second time changes nothing. *)
Theorem unique_normalized_idempotent (normalized : list string) :
  unique_normalized (unique_normalized normalized) = unique_normalized normalized.
Proof.
  destruct (unique_loop_spec ∅ normalized) as (Hnd & _ & _).
  fold (unique_normalized normalized) in Hnd.
  unfold unique_normalized at 1. apply unique_loop_NoDup; [done|].
  apply Forall_forall. (set_unfold; intuition (subst; eauto; congruence)).
Qed.

Lemma normalize_loop_elem_of (table : gmap string country_data)
    (selected_country : string) (lines : list string) (x : string) :
  x ∈ normalize_loop table selected_country lines
  <-> x <> "" /\ exists ln, ln ∈ lines
                          /\ normalize_number_in table ln selected_country = Some x.
Proof.
  induction lines as [|ln rest IH].
  - cbn. split; [by intros ?%elem_of_nil|]. intros (_ & ? & ?%elem_of_nil & _). done.
  - cbn [normalize_loop].
    destruct (normalize_number_in table ln selected_country) as [[|c r]|] eqn:Hres;
      cbn [truthy default from_option id].
    + rewrite IH. split.
      * intros (Hne & l0 & Hin & Hl0). split; [done|]. exists l0. split; [by right|done].
      * intros (Hne & l0 & Hin & Hl0). split; [done|].
        apply elem_of_cons in Hin as [->|Hin]; [congruence|]. by exists l0.
    + rewrite elem_of_cons, IH. split.
      * intros [->|(Hne & l0 & Hin & Hl0)].
        -- split; [done|]. exists ln. split; [by left|done].
        -- split; [done|]. exists l0. split; [by right|done].
      * intros (Hne & l0 & Hin & Hl0).
        apply elem_of_cons in Hin as [->|Hin]; [left; congruence|].
        right. split; [done|]. by exists l0.
    + rewrite IH. split.
      * intros (Hne & l0 & Hin & Hl0). split; [done|]. exists l0. split; [by right|done].
      * intros (Hne & l0 & Hin & Hl0). split; [done|].
        apply elem_of_cons in Hin as [->|Hin]; [congruence|]. by exists l0.
Qed.

(** X12: when normalize_preview_numbers writes numbers into the preview,
    they are written one per line, none of them twice, and each of them
    is what normalize_number returns for the selected country on some
    line it was given, so each passes the validity test of the
    recipients; otherwise the preview says that no number matched. *)
Theorem normalize_preview_numbers_content (fs : filesystem)
    (preview_content recipients_var country_var content : string) :
  normalize_preview_numbers COUNTRY_CODES fs preview_content recipients_var
    country_var = Some content ->
  content = "(No numbers matched normalization rules)"
  \/ exists numbers,
       content = join_lines numbers
       /\ numbers <> []
       /\ NoDup numbers
       /\ Forall (fun r => valid_entry r = true) numbers
       /\ Forall (fun r => exists ln, normalize_number ln country_var = Some r)
            numbers.
Proof.
  unfold normalize_preview_numbers.
  destruct (if _ && _ then _ else _) as [lines|]; [|done].
  destruct (unique_loop_spec ∅ (normalize_loop COUNTRY_CODES country_var lines))
    as (Hnd & Hmem & _).
  fold (unique_normalized (normalize_loop COUNTRY_CODES country_var lines))
    in Hnd, Hmem.
  destruct (unique_normalized _) as [|n numbers] eqn:Hu; intros [= <-]; [by left|].
  right. exists (n :: numbers). split; [done|]. split; [done|]. split; [done|].
  assert (Hfrom : Forall (fun r => exists ln, normalize_number ln country_var = Some r)
                    (n :: numbers)).
  { apply Forall_forall. intros r Hr. apply Hmem in Hr as [Hr _].
    apply normalize_loop_elem_of in Hr as (_ & ln & _ & Hln). by exists ln. }
  split; [|done].
  eapply Forall_impl; [exact Hfrom|]. intros r [ln Hln].
  exact (normalize_number_in_valid COUNTRY_CODES ln country_var r
           (COUNTRY_CODES_valid country_var) Hln).
Qed.

(** ** From the preview to the dispatch *)

Lemma str_splitlines_line (x rest : string) :
  str_all chr_isdigit_or_plus x = true ->
  str_splitlines (x +:+ String newline rest) = x :: str_splitlines rest.
Proof.
  induction x as [|c x IH]; intros Hall.
  - change ("" +:+ ?y) with y. cbn [str_splitlines].
    change (chr_islinebreak newline) with true. cbn match.
    by destruct rest.
  - simpl in Hall. apply andb_true_iff in Hall as [Hc Hall].
    destruct (chr_isdigit_or_plus_facts c Hc) as (_ & _ & _ & _ & _ & Hbreak).
    rewrite !str_app_cons. cbn [str_splitlines]. by rewrite Hbreak, (IH Hall).
Qed.

Lemma str_splitlines_one (x : string) :
  x <> "" -> str_all chr_isdigit_or_plus x = true -> str_splitlines x = [x].
Proof.
  induction x as [|c x IH]; [done|]. intros _ Hall.
  simpl in Hall. apply andb_true_iff in Hall as [Hc Hall].
  destruct (chr_isdigit_or_plus_facts c Hc) as (_ & _ & _ & _ & _ & Hbreak).
  cbn [str_splitlines]. rewrite Hbreak.
  destruct x as [|d x]; [done|]. by rewrite IH.
Qed.

Lemma str_splitlines_join_lines (numbers : list string) :
  Forall (fun r => valid_entry r = true) numbers ->
  str_splitlines (join_lines numbers) = numbers.
Proof.
  induction 1 as [|x l Hx Hl IH]; [done|].
  destruct (valid_entry_chars _ Hx) as (Hne & _ & Hall).
  destruct l as [|y l].
  - by apply str_splitlines_one.
  - by rewrite join_lines_cons, (str_splitlines_line _ _ Hall), IH.
Qed.

Lemma preview_loop_valid (numbers : list string) :
  Forall (fun r => valid_entry r = true) numbers ->
  preview_loop numbers = numbers.
Proof.
  induction 1 as [|x l Hx Hl IH]; [done|]. cbn [preview_loop].
  rewrite (valid_entry_strip _ Hx), IH.
  destruct (valid_entry_chars _ Hx) as (Hne & Hplus & _).
  unfold valid_entry in Hx. rewrite Hplus in Hx |- *. cbn [andb] in Hx.
  rewrite Hx. by destruct (String.eqb_spec x "").
Qed.

Lemma str_rstrip_app_fixed (a b : string) :
  b <> "" -> str_rstrip b = b -> str_rstrip (a +:+ b) = a +:+ b.
Proof.
  intros Hne Hb. induction a as [|c a IH]; [done|].
  rewrite str_app_cons. cbn [str_rstrip]. rewrite IH.
  destruct a; [by destruct b|done].
Qed.

Lemma join_lines_shape (numbers : list string) :
  numbers <> [] ->
  Forall (fun r => valid_entry r = true) numbers ->
  join_lines numbers <> ""
  /\ str_startswith (join_lines numbers) "+" = true
  /\ str_rstrip (join_lines numbers) = join_lines numbers.
Proof.
  intros Hne Hvalid. induction Hvalid as [|x l Hx Hl IH]; [done|].
  destruct (valid_entry_chars _ Hx) as (Hxne & Hplus & _).
  pose proof (valid_entry_strip _ Hx) as Hstrip.
  assert (Hrx : str_rstrip x = x).
  { unfold str_strip in Hstrip. destruct x as [|c x]; [done|].
    simpl in Hplus. apply andb_true_iff in Hplus as [->%Ascii.eqb_eq _].
    by change (str_lstrip (String "+" x)) with (String "+" x) in Hstrip. }
  destruct l as [|y l]; [done|].
  destruct IH as (Hjne & _ & Hjr); [done|].
  rewrite join_lines_cons. split; [by destruct x|].
  split; [by apply str_startswith_app|].
  apply str_rstrip_app_fixed; [done|].
  change (String newline ?j) with (String newline "" +:+ j).
  by apply str_rstrip_app_fixed.
Qed.

(** The text the worker takes from a preview that holds valid numbers,
    one per line, is the preview's content, and it takes exactly those
    numbers from it. *)
Lemma preview_text_of_numbers (numbers : list string) :
  numbers <> [] ->
  Forall (fun r => valid_entry r = true) numbers ->
  str_strip (text_get (join_lines numbers)) = join_lines numbers
  /\ negb (String.eqb (join_lines numbers) "")
     && negb (str_startswith (join_lines numbers) "(") = true
  /\ preview_loop (str_splitlines (join_lines numbers)) = numbers.
Proof.
  intros Hne Hvalid.
  destruct (join_lines_shape _ Hne Hvalid) as (Hjne & Hplus & Hr).
  split; [|split].
  - unfold str_strip, text_get.
    destruct (join_lines numbers) as [|c j] eqn:Hj; [done|].
    simpl in Hplus. apply andb_true_iff in Hplus as [->%Ascii.eqb_eq _].
    rewrite str_app_cons.
    change (str_lstrip (String "+" ?x)) with (String "+" x).
    rewrite <-str_app_cons. by rewrite str_rstrip_app_newline.
  - destruct (join_lines numbers) as [|c j]; [done|].
    simpl in Hplus |- *. by apply andb_true_iff in Hplus as [->%Ascii.eqb_eq _].
  - by rewrite str_splitlines_join_lines, preview_loop_valid.
Qed.

Section ApplicationFacts.
Context {World : Type}.
Variable env : operation -> World -> option string * World.
Variable quote_plus : string -> string.

Lemma send_messages_to_recipients_facts (recipients : list string)
    (message : string) (per_send_wait_seconds : Z) (tab_close : bool)
    (close_time_seconds : Z) (w : World) :
  let run := send_messages_to_recipients env recipients message
               per_send_wait_seconds tab_close close_time_seconds w in
  outcome_value run = Return tt
  /\ attempted (trace_of run) = recipients
  /\ length (outcomes (trace_of run)) = length recipients.
Proof.
  intros run. subst run. destruct recipients as [|p rest]; [done|].
  rewrite send_messages_to_recipients_run by done. cbn zeta.
  rewrite outcome_value_triple, trace_of_triple. skip_print.
  rewrite attempted_app, outcomes_app, !app_nil_r.
  by rewrite send_loop_attempted, send_loop_outcomes_length.
Qed.

(** X13: send_messages_to_recipients never raises, whatever the calls to
    pywhatkit do: it calls pywhatkit once for each recipient, in the
    order of the list, and settles one outcome for each. *)
Theorem send_messages_to_recipients_total (recipients : list string)
    (message : string) (per_send_wait_seconds : Z) (tab_close : bool)
    (close_time_seconds : Z) (w : World) :
  let run := send_messages_to_recipients env recipients message
               per_send_wait_seconds tab_close close_time_seconds w in
  outcome_value run = Return tt
  /\ attempted (trace_of run) = recipients
  /\ length (outcomes (trace_of run)) = length recipients.
Proof. apply send_messages_to_recipients_facts. Qed.

(** X14: when the preview holds numbers that pass the validity test, one
    per line, and single-tab mode is off, on_send with a message that is
    not blank dispatches the stripped message to exactly these numbers
    through send_messages_to_recipients, closing tabs unless "keep tab
    open" is ticked, and then logs the end and enables the button
    again. *)
Theorem on_send_sends_preview (fs : filesystem)
    (SELENIUM_AVAILABLE WEBDRIVER_MANAGER_AVAILABLE : bool)
    (recipients_var message_content : string) (numbers : list string)
    (wait_var close_var : Z) (keep_tab_var : bool) (w : World) :
  numbers <> [] ->
  Forall (fun r => valid_entry r = true) numbers ->
  str_strip (text_get message_content) <> "" ->
  let run := send_messages_to_recipients env numbers
               (str_strip (text_get message_content)) wait_var
               (negb keep_tab_var) close_var w in
  on_send env quote_plus fs SELENIUM_AVAILABLE WEBDRIVER_MANAGER_AVAILABLE
    recipients_var message_content (join_lines numbers) (Return wait_var)
    (Return close_var) keep_tab_var false w
  = (Return [DisableSend; AppendLog "Reading recipients and starting to send...";
             AppendLog "Finished sending."; EnableSend],
     final_world run, trace_of run).
Proof.
  intros Hne Hvalid Hmsg run.
  destruct (preview_text_of_numbers _ Hne Hvalid) as (Htext & Hcond & Hloop).
  destruct (send_messages_to_recipients_facts numbers
              (str_strip (text_get message_content)) wait_var (negb keep_tab_var)
              close_var w) as (Hret & _).
  unfold on_send.
  destruct (String.eqb_spec (str_strip (text_get message_content)) "") as [|_];
    [done|].
  unfold worker. rewrite Htext, Hcond, Hloop. subst run.
  destruct numbers as [|number others]; [done|].
  unfold bind, try_except, ret.
  destruct (send_messages_to_recipients env (number :: others) _ _ _ _ w)
    as [[r w1] t].
  cbn in Hret. subst r. lazy beta iota.
  by rewrite !app_nil_r.
Qed.

Lemma try_except_returns {A} (body : @M World A) (handler : exn -> @M World A)
    (w : World) :
  (forall error w', exists a, outcome_value (handler error w') = Return a) ->
  exists a, outcome_value (try_except body handler w) = Return a.
Proof.
  intros Hhandler. unfold try_except.
  destruct (body w) as [[[a|error] w1] t1]; [by exists a|].
  destruct (Hhandler error w1) as [a Ha].
  destruct (handler error w1) as [[r w2] t2]. cbn in Ha. subst r. by exists a.
Qed.

(** X15: with a blank message on_send only shows an error dialog,
    whatever the spinboxes hold.  With any other message, when
    wait_var.get() raises because the spinbox does not hold a number
    (or, when that returns, close_var.get() does), that error escapes
    before the button is disabled, and nothing is read, called or
    slept.  With a message and numbers in both spinboxes, no exception
    raised by the file system or by the calls to pywhatkit or Selenium
    escapes: the button is disabled first and enabled again last,
    whether the dispatch went through or an error dialog was shown. *)
Theorem on_send_always_answers (fs : filesystem)
    (SELENIUM_AVAILABLE WEBDRIVER_MANAGER_AVAILABLE : bool)
    (recipients_var message_content preview_content : string)
    (wait_var close_var : result Z) (keep_tab_var single_tab_var : bool)
    (w : World) :
  let sent := on_send env quote_plus fs SELENIUM_AVAILABLE
                WEBDRIVER_MANAGER_AVAILABLE recipients_var message_content
                preview_content wait_var close_var keep_tab_var single_tab_var w in
  if String.eqb (str_strip (text_get message_content)) "" then
    sent = (Return [ShowError "WPBot" "Please enter a message to send."], w, [])
  else
    match wait_var, close_var with
    | Raise error, _ => sent = (Raise error, w, [])
    | Return _, Raise error => sent = (Raise error, w, [])
    | Return _, Return _ =>
        exists asked,
          outcome_value sent
          = Return (DisableSend
                      :: AppendLog "Reading recipients and starting to send..."
                      :: asked ++ [EnableSend])
    end.
Proof.
  intros sent. subst sent. unfold on_send.
  destruct (String.eqb (str_strip (text_get message_content)) ""); [done|].
  destruct wait_var as [wait_seconds|error]; [|done].
  destruct close_var as [close_seconds|error]; [|done].
  unfold worker. unfold bind at 1 2.
  match goal with
  | |- context [try_except ?body ?handler w] =>
      destruct (try_except_returns body handler w) as [asked Hasked]
  end.
  { intros error w'. destruct error; by eexists. }
  match goal with
  | |- context [try_except ?body ?handler w] =>
      destruct (try_except body handler w) as [[r w1] t1]
  end.
  cbn in Hasked. subst r. by exists asked.
Qed.

(** X16: with single-tab mode ticked and Selenium not available, on_send
    with numbers in the preview and a message shows the error dialog
    "Error: Selenium not installed. ..." and enables the button again;
    no call is made and nothing is printed. *)
Theorem on_send_single_tab_without_selenium (fs : filesystem)
    (WEBDRIVER_MANAGER_AVAILABLE : bool)
    (recipients_var message_content : string) (numbers : list string)
    (wait_var close_var : Z) (keep_tab_var : bool) (w : World) :
  numbers <> [] ->
  Forall (fun r => valid_entry r = true) numbers ->
  str_strip (text_get message_content) <> "" ->
  on_send env quote_plus fs false WEBDRIVER_MANAGER_AVAILABLE
    recipients_var message_content (join_lines numbers) (Return wait_var)
    (Return close_var) keep_tab_var true w
  = (Return [DisableSend; AppendLog "Reading recipients and starting to send...";
             ShowError "WPBot"
               "Error: Selenium not installed. Install with: python -m pip install selenium";
             EnableSend],
     w, []).
Proof.
  intros Hne Hvalid Hmsg.
  destruct (preview_text_of_numbers _ Hne Hvalid) as (Htext & Hcond & Hloop).
  unfold on_send.
  destruct (String.eqb_spec (str_strip (text_get message_content)) "") as [|_];
    [done|].
  unfold worker. rewrite Htext, Hcond, Hloop.
  by destruct numbers as [|number others].
Qed.

(** X17: when the preview is empty and the file named in the path entry
    gives no valid number, on_send with a message logs "No valid
    recipients found in file.", makes no call, and enables the button
    again; the diagnostics of the file reader are all that is printed. *)
Theorem on_send_without_recipients (fs : filesystem)
    (SELENIUM_AVAILABLE WEBDRIVER_MANAGER_AVAILABLE : bool)
    (recipients_var message_content : string) (printed : list event)
    (wait_var close_var : Z) (keep_tab_var single_tab_var : bool) (w : World) :
  str_strip (text_get message_content) <> "" ->
  str_strip recipients_var <> "" ->
  read_recipients_from_file fs (str_strip recipients_var) = (Return [], printed) ->
  on_send env quote_plus fs SELENIUM_AVAILABLE WEBDRIVER_MANAGER_AVAILABLE
    recipients_var message_content "" (Return wait_var) (Return close_var)
    keep_tab_var single_tab_var w
  = (Return [DisableSend; AppendLog "Reading recipients and starting to send...";
             AppendLog "No valid recipients found in file."; EnableSend],
     w, printed).
Proof.
  intros Hmsg Hpath Hread. unfold on_send.
  destruct (String.eqb_spec (str_strip (text_get message_content)) "") as [|_];
    [done|].
  unfold worker. change (str_strip (text_get "")) with "". cbn [String.eqb negb andb].
  destruct (String.eqb_spec (str_strip recipients_var) "") as [|_]; [done|].
  unfold bind, try_except, printing, ret. rewrite Hread. cbn.
  by rewrite !app_nil_r.
Qed.

(** *** The command line *)

Lemma acted_app (t1 t2 : list event) : acted (t1 ++ t2) = acted t1 ++ acted t2.
Proof. apply List.filter_app. Qed.

Lemma recipients_loop_printed (raw_lines : list string) :
  acted (recipients_loop raw_lines).2 = []
  /\ attempted (recipients_loop raw_lines).2 = []
  /\ outcomes (recipients_loop raw_lines).2 = [].
Proof.
  rewrite recipients_loop_spec. cbn [snd].
  induction (List.filter _ _) as [|line l IH]; [done|]. cbn. apply IH.
Qed.

Lemma read_recipients_from_file_printed (fs : filesystem) (file_path : string) :
  acted (read_recipients_from_file fs file_path).2 = []
  /\ attempted (read_recipients_from_file fs file_path).2 = []
  /\ outcomes (read_recipients_from_file fs file_path).2 = [].
Proof.
  unfold read_recipients_from_file. destruct (fs !! file_path) as [text|]; [|done].
  pose proof (recipients_loop_printed (file_lines text)) as H.
  by destruct (recipients_loop (file_lines text)).
Qed.

(** X18: a run of main on the command line (arguments given, no --gui)
    that does not end by returning from the dispatch (it stopped on the
    missing --recipients argument, or raised an exception) has made no
    call to pywhatkit and has not slept, and has left the world as it
    was. *)
Theorem main_sends_nothing_unless_it_returns (launch_gui : @M World unit)
    (fs : filesystem) (argc : nat) (args : cli_args) (w : World) :
  argc <> 1 ->
  arg_gui args = false ->
  let run := main env launch_gui fs argc args w in
  run.1.1 <> Ran (Return tt) ->
  run.1.2 = w /\ acted run.2 = [].
Proof.
  intros Hargc Hgui run Hout. subst run. unfold main in *.
  destruct (Nat.eqb_spec argc 1); [done|]. rewrite Hgui in *.
  destruct (negb (truthy (arg_recipients args))); [done|].
  unfold bind, printing in *.
  destruct (read_recipients_from_file_printed fs (default "" (arg_recipients args)))
    as (Hacted & _).
  destruct (read_recipients_from_file fs (default "" (arg_recipients args)))
    as [[recipients|error] printed]; cbn [fst snd] in *; [|done].
  destruct (read_message fs (arg_message args) _) as [message|error];
    cbn [fst snd] in *; [|by rewrite app_nil_r].
  destruct (send_messages_to_recipients_facts recipients message (arg_wait args)
              (negb (arg_keep_tab_open args)) (arg_close_time args) w) as (Hret & _).
  destruct (send_messages_to_recipients env recipients message _ _ _ w) as [[r w1] t].
  cbn in Hret. subst r. by cbn in Hout.
Qed.

(** X19: a missing recipients file ends the command-line run with
    FileNotFoundError before the message arguments are looked at: also
    when they are contradictory or missing, this is the error raised. *)
Theorem main_missing_recipients_file (launch_gui : @M World unit)
    (fs : filesystem) (argc : nat) (args : cli_args) (file_path : string)
    (w : World) :
  argc <> 1 ->
  arg_gui args = false ->
  arg_recipients args = Some file_path ->
  file_path <> "" ->
  fs !! file_path = None ->
  main env launch_gui fs argc args w
  = (Ran (Raise (FileNotFoundError ("Recipients file not found: " +:+ file_path))),
     w, []).
Proof.
  intros Hargc Hgui Hrec Hpath Hfile. unfold main.
  destruct (Nat.eqb_spec argc 1); [done|]. rewrite Hgui, Hrec.
  destruct file_path as [|c p]; [done|]. cbn [truthy negb default from_option id].
  unfold bind, printing, read_recipients_from_file. by rewrite Hfile.
Qed.

(** X20: when the recipients file and the message can be read, the
    command-line run returns without an exception and has called
    pywhatkit once for each number read from the file, in file order,
    with the message read, the --wait and --close-time values, and
    tab_close set unless --keep-tab-open was given; what it prints first
    are the diagnostics of the file reader. *)
Theorem main_sends_to_file (launch_gui : @M World unit) (fs : filesystem)
    (argc : nat) (args : cli_args) (file_path : string)
    (recipients : list string) (printed : list event) (message : string)
    (w : World) :
  argc <> 1 ->
  arg_gui args = false ->
  arg_recipients args = Some file_path ->
  file_path <> "" ->
  read_recipients_from_file fs file_path = (Return recipients, printed) ->
  read_message fs (arg_message args)
    (if truthy (arg_message_file args) then arg_message_file args else None)
  = Return message ->
  let run := send_messages_to_recipients env recipients message (arg_wait args)
               (negb (arg_keep_tab_open args)) (arg_close_time args) w in
  main env launch_gui fs argc args w
  = (Ran (Return tt), final_world run, printed ++ trace_of run)
  /\ attempted (printed ++ trace_of run) = recipients.
Proof.
  intros Hargc Hgui Hrec Hpath Hread Hmsg run.
  destruct (send_messages_to_recipients_facts recipients message (arg_wait args)
              (negb (arg_keep_tab_open args)) (arg_close_time args) w)
    as (Hret & Hatt & _).
  fold run in Hret, Hatt. split.
  - unfold main. destruct (Nat.eqb_spec argc 1); [done|]. rewrite Hgui, Hrec.
    destruct file_path as [|c p]; [done|]. cbn [truthy negb default from_option id].
    unfold bind, printing. rewrite Hread, Hmsg. cbn [fst snd]. fold run.
    destruct run as [[r w1] t]. cbn in Hret. subst r. by cbn.
  - destruct (read_recipients_from_file_printed fs file_path) as (_ & Hnone & _).
    rewrite Hread in Hnone. cbn [snd] in Hnone.
    by rewrite attempted_app, Hnone, Hatt.
Qed.

(** *** The single-tab sender and its browser *)

(** X21: when the browser cannot be started (webdriver-manager is
    missing, Chrome does not start, the start page does not load, or
    the login is not seen in time), send_messages_single_tab raises that
    error to its caller and stops there: no "Sending to" line is
    printed, no chat address is visited and it does not sleep. *)
Theorem send_messages_single_tab_start_fails (WEBDRIVER_MANAGER_AVAILABLE : bool)
    (recipients : list string) (message : string) (initial_wait_seconds : Z)
    (user_data_dir_path : option string) (error : exn) (w : World) :
  recipients <> [] ->
  let started := start_browser env WEBDRIVER_MANAGER_AVAILABLE initial_wait_seconds
                   user_data_dir_path w in
  outcome_value started = Raise error ->
  send_messages_single_tab env quote_plus true WEBDRIVER_MANAGER_AVAILABLE
    recipients message initial_wait_seconds user_data_dir_path w
  = (Raise error, final_world started, trace_of started)
  /\ sleeps (trace_of started) = []
  /\ Forall (fun url => url = "https://web.whatsapp.com/") (visited (trace_of started)).
Proof.
  intros Hne started Hstarted. split.
  - unfold send_messages_single_tab. destruct recipients as [|p rest]; [done|].
    cbn [negb]. unfold bind at 1. fold started.
    destruct started as [[r w1] t]. cbn in Hstarted. by subst r.
  - clear Hstarted. subst started.
    unfold start_browser, bind, try_except, call, ret, raise.
    destruct (truthy user_data_dir_path), WEBDRIVER_MANAGER_AVAILABLE; cbn [negb];
      repeat match goal with
             | |- context [env ?op ?w0] => destruct (env op w0) as [[?|] ?]; cbn
             end;
      split; try done; repeat constructor.
Qed.

(** X22: a browser that started has waited for the login with a timeout
    of max(30, initial_wait_seconds) seconds, which is at least 30, and
    this is the timeout the loop then uses for every chat. *)
Theorem start_browser_timeout (WEBDRIVER_MANAGER_AVAILABLE : bool)
    (initial_wait_seconds : Z) (user_data_dir_path : option string)
    (timeout : Z) (w : World) :
  let started := start_browser env WEBDRIVER_MANAGER_AVAILABLE initial_wait_seconds
                   user_data_dir_path w in
  outcome_value started = Return timeout ->
  timeout = Z.max 30 initial_wait_seconds
  /\ (30 <= timeout)%Z
  /\ (initial_wait_seconds <= timeout)%Z
  /\ WEBDRIVER_MANAGER_AVAILABLE = true
  /\ last (trace_of started)
     = Some (Call (wait_until_present timeout "div[role='textbox']") None).
Proof.
  intros started. subst started.
  unfold start_browser, bind, try_except, call, ret, raise.
  destruct (truthy user_data_dir_path), WEBDRIVER_MANAGER_AVAILABLE; cbn [negb];
    repeat match goal with
           | |- context [env ?op ?w0] => destruct (env op w0) as [[?|] ?]; cbn
           end;
    try done; intros [= <-]; repeat split; try done; lia.
Qed.

(** *** How long a dispatch sleeps *)

Lemma sleeps_app (t1 t2 : list event) : sleeps (t1 ++ t2) = sleeps t1 ++ sleeps t2.
Proof. apply omap_app. Qed.

Lemma send_loop_sleeps (total : nat) (message : string) (per_send_wait_seconds : Z)
    (tab_close : bool) (close_time_seconds : Z) (index : nat)
    (recipients : list string) (w : World) :
  let looped := send_loop env total message per_send_wait_seconds tab_close
                  close_time_seconds index recipients w in
  sleeps (trace_of looped)
  = map (settle_pywhatkit per_send_wait_seconds) (outcomes (trace_of looped)).
Proof.
  revert index w. induction recipients as [|p rest IH]; intros index w; [done|].
  cbn zeta in *. rewrite send_loop_cons. cbn zeta. rewrite trace_of_triple.
  rewrite sleeps_app, outcomes_app, map_app, IH. unfold send_block.
  by destruct (env _ w).1.
Qed.

(** X23: send_messages_to_recipients sleeps once after every recipient,
    for max(20, per_send_wait_seconds + 10) seconds after a send that
    went through and for 5 seconds after a failure; so in all it sleeps
    at least 20 seconds for every number sent to and 5 seconds for every
    failure, and never less than 5 N seconds for N recipients. *)
Theorem send_messages_to_recipients_sleeps (recipients : list string)
    (message : string) (per_send_wait_seconds : Z) (tab_close : bool)
    (close_time_seconds : Z) (w : World) :
  let run := send_messages_to_recipients env recipients message
               per_send_wait_seconds tab_close close_time_seconds w in
  let sent := List.filter is_sent (outcomes (trace_of run)) in
  let failed := List.filter (fun o => negb (is_sent o)) (outcomes (trace_of run)) in
  sleeps (trace_of run)
  = map (settle_pywhatkit per_send_wait_seconds) (outcomes (trace_of run))
  /\ length (sleeps (trace_of run)) = length recipients
  /\ (20 * Z.of_nat (length sent) + 5 * Z.of_nat (length failed)
      <= total_sleep (trace_of run))%Z
  /\ (5 * Z.of_nat (length recipients) <= total_sleep (trace_of run))%Z.
Proof.
  intros run sent failed.
  assert (Hsleeps : sleeps (trace_of run)
                    = map (settle_pywhatkit per_send_wait_seconds)
                        (outcomes (trace_of run))).
  { subst run. destruct recipients as [|p rest]; [done|].
    rewrite send_messages_to_recipients_run by done. cbn zeta.
    rewrite trace_of_triple. skip_print.
    change (sleeps (Print ?l :: ?t)) with (sleeps t).
    rewrite sleeps_app, outcomes_app, !app_nil_r. apply send_loop_sleeps. }
  destruct (send_messages_to_recipients_facts recipients message
              per_send_wait_seconds tab_close close_time_seconds w)
    as (_ & _ & Hlen).
  fold run in Hlen. subst sent failed.
  unfold total_sleep. rewrite Hsleeps, length_map, <-Hlen.
  split; [done|]. split; [done|].
  generalize (outcomes (trace_of run)). clear. intros os. split.
  - induction os as [|o os IH]; cbn [map foldr length List.filter]; [lia|].
    destruct o; cbn [settle_pywhatkit is_sent negb length]; lia.
  - induction os as [|o os IH]; cbn [map foldr length]; [lia|].
    destruct o; cbn [settle_pywhatkit]; lia.
Qed.
(** X24: once the browser has started, send_messages_single_tab never
    raises, whatever the calls to Selenium do in the loop: after the
    start page it visits the chat address of each recipient once, in the
    order of the list, and settles one outcome for each. *)
Theorem send_messages_single_tab_total (WEBDRIVER_MANAGER_AVAILABLE : bool)
    (recipients : list string) (message : string) (initial_wait_seconds : Z)
    (user_data_dir_path : option string) (timeout : Z) (w : World) :
  recipients <> [] ->
  outcome_value (start_browser env WEBDRIVER_MANAGER_AVAILABLE initial_wait_seconds
                   user_data_dir_path w) = Return timeout ->
  let run := send_messages_single_tab env quote_plus true
               WEBDRIVER_MANAGER_AVAILABLE recipients message initial_wait_seconds
               user_data_dir_path w in
  outcome_value run = Return tt
  /\ visited (trace_of run)
     = "https://web.whatsapp.com/"
       :: map (fun phone_number => chat_url quote_plus phone_number message)
            recipients
  /\ length (outcomes (trace_of run)) = length recipients.
Proof.
  intros Hne Hstarted run. subst run.
  rewrite (send_messages_single_tab_run env quote_plus _ _ _ _ _ _ timeout Hne Hstarted).
  cbn zeta. rewrite outcome_value_triple, trace_of_triple.
  destruct (start_browser_quiet env _ _ _ _ _ Hstarted) as (Hout0 & _ & Hvis0).
  do 2 (rewrite ?visited_app, ?outcomes_app; skip_print).
  rewrite Hout0, Hvis0, !app_nil_r. cbn [app].
  by rewrite single_tab_loop_visited, single_tab_loop_outcomes_length.
Qed.

End ApplicationFacts.

(** *** The properties above on examples *)

Lemma normalize_preview_numbers_content_witness :
  join_lines ["+90551234567"; "+12345"] = "(No numbers matched normalization rules)"
  \/ exists numbers,
       join_lines ["+90551234567"; "+12345"] = join_lines numbers
       /\ numbers <> []
       /\ NoDup numbers
       /\ Forall (fun r => valid_entry r = true) numbers
       /\ Forall (fun r => exists ln, normalize_number ln "Turkey" = Some r) numbers.
Proof.
  apply (normalize_preview_numbers_content ∅
           (join_lines ["0555 123 45 67"; "(0555) 123-4567"; "+12345"]) "" "Turkey").
  vm_compute; reflexivity.
Defined.

Lemma on_send_sends_preview_witness :
  attempted
    (trace_of (on_send (flaky [1]) (fun text => text) ∅ true true ""
                 " Hello! " (join_lines ["+905551234567"; "+12345"])
                 (Return 40%Z) (Return 3%Z) true false 0))
  = ["+905551234567"; "+12345"].
Proof.
  rewrite (on_send_sends_preview (flaky [1]) (fun text => text) ∅ true true ""
             " Hello! " ["+905551234567"; "+12345"] 40 3 true 0).
  - reflexivity.
  - discriminate.
  - repeat constructor.
  - vm_compute; discriminate.
Defined.

Lemma on_send_single_tab_without_selenium_witness :
  trace_of (on_send (flaky []) (fun text => text) ∅ false true ""
              " Hello! " (join_lines ["+905551234567"; "+12345"])
              (Return 40%Z) (Return 3%Z) true true 0)
  = [].
Proof.
  rewrite (on_send_single_tab_without_selenium (flaky []) (fun text => text) ∅ true ""
             " Hello! " ["+905551234567"; "+12345"] 40 3 true 0).
  - reflexivity.
  - discriminate.
  - repeat constructor.
  - vm_compute; discriminate.
Defined.

Lemma on_send_without_recipients_witness :
  outcome_value
    (on_send (flaky []) (fun text => text)
       {[ "recipients.txt" := join_lines ["# nobody"; "bad"] ]} true true
       " recipients.txt " " Hello! " "" (Return 40%Z) (Return 3%Z) true false 0)
  = Return [DisableSend; AppendLog "Reading recipients and starting to send...";
            AppendLog "No valid recipients found in file."; EnableSend].
Proof.
  rewrite (on_send_without_recipients (flaky []) (fun text => text)
             {[ "recipients.txt" := join_lines ["# nobody"; "bad"] ]} true true
             " recipients.txt " " Hello! "
             [PrintErr "Skipping invalid phone entry: bad"] 40 3 true false 0).
  - reflexivity.
  - vm_compute; discriminate.
  - vm_compute; discriminate.
  - vm_compute; reflexivity.
Defined.

Lemma main_sends_nothing_unless_it_returns_witness :
  (main (flaky []) example_gui example_fs 3
     (CliArgs (Some "recipients.txt") (Some "Hello!") (Some "message.txt")
        40 3 false false) 0).1.2 = 0
  /\ acted (main (flaky []) example_gui example_fs 3
              (CliArgs (Some "recipients.txt") (Some "Hello!") (Some "message.txt")
                 40 3 false false) 0).2 = [].
Proof.
  apply (main_sends_nothing_unless_it_returns (flaky []) example_gui example_fs 3
           (CliArgs (Some "recipients.txt") (Some "Hello!") (Some "message.txt")
              40 3 false false) 0).
  - discriminate.
  - reflexivity.
  - vm_compute; discriminate.
Defined.

Lemma main_missing_recipients_file_witness :
  main (flaky []) example_gui example_fs 3
    (CliArgs (Some "nobody.txt") (Some "Hello!") (Some "message.txt")
       40 3 false false) 0
  = (Ran (Raise (FileNotFoundError "Recipients file not found: nobody.txt")), 0, []).
Proof.
  apply (main_missing_recipients_file (flaky []) example_gui example_fs 3
           (CliArgs (Some "nobody.txt") (Some "Hello!") (Some "message.txt")
              40 3 false false) "nobody.txt" 0).
  - discriminate.
  - reflexivity.
  - reflexivity.
  - discriminate.
  - vm_compute; reflexivity.
Defined.

Lemma main_sends_to_file_witness :
  attempted
    ([PrintErr "Skipping invalid phone entry: bad"]
     ++ trace_of (send_messages_to_recipients (flaky []) ["+905551234567"; "+12345"]
                    "Hello!" 40 true 3 0))
  = ["+905551234567"; "+12345"].
Proof.
  apply (main_sends_to_file (flaky []) example_gui example_fs 3 example_args
           "recipients.txt"
           ["+905551234567"; "+12345"]
           [PrintErr "Skipping invalid phone entry: bad"] "Hello!" 0).
  - discriminate.
  - reflexivity.
  - reflexivity.
  - discriminate.
  - vm_compute; reflexivity.
  - vm_compute; reflexivity.
Defined.

Lemma send_messages_single_tab_start_fails_witness :
  send_messages_single_tab (flaky [3]) (fun text => text) true true
    ["+905551234567"] "Hello!" 40 None 0
  = (Raise (LibraryError "timed out"), 4,
     [Call (Chrome ["--disable-notifications"]) None;
      Call maximize_window None;
      Call (driver_get "https://web.whatsapp.com/") None;
      Call (wait_until_present 40 "div[role='textbox']") (Some "timed out")]).
Proof.
  apply (send_messages_single_tab_start_fails (flaky [3]) (fun text => text) true
           ["+905551234567"] "Hello!" 40 None (LibraryError "timed out") 0).
  - discriminate.
  - reflexivity.
Defined.

Lemma start_browser_timeout_witness :
  (30 <= 30)%Z
  /\ last (trace_of (start_browser (flaky []) true 10 (Some "profile") 0))
     = Some (Call (wait_until_present 30 "div[role='textbox']") None).
Proof.
  destruct (start_browser_timeout (flaky []) true 10 (Some "profile") 30 0 eq_refl)
    as (_ & Hmin & _ & _ & Hlast).
  split; [exact Hmin|exact Hlast].
Defined.

Lemma send_messages_single_tab_total_witness :
  visited (trace_of (send_messages_single_tab (flaky [5; 9]) (fun text => text)
                       true true ["+905551234567"; "+12345"] "Hello" 40 None 0))
  = ["https://web.whatsapp.com/";
     "https://web.whatsapp.com/send?phone=905551234567&text=Hello";
     "https://web.whatsapp.com/send?phone=12345&text=Hello"].
Proof.
  destruct (send_messages_single_tab_total (flaky [5; 9]) (fun text => text) true
              ["+905551234567"; "+12345"] "Hello" 40 None 40 0)
    as (_ & Hvisited & _).
  - discriminate.
  - reflexivity.
  - exact Hvisited.
Defined.
